(** * energy-reports: a shallow embedding of the LLM fallback client, the
    sentinel and counter utilities, the oil daily pipeline, the oil price
    fetcher and the delta / percent metrics calculators. *)

From Stdlib Require Import QArith Qround Lia Lqa Sorting.Permutation Sorting.Sorted.
From stdpp Require Import base gmap list strings pretty.

Set Warnings "-register-all".
Open Scope string_scope.

(* ------------------------------------------------------------------ *)
(** ** Python exceptions and fallible results *)

(** The exceptions the modelled code can raise or catch. *)
Inductive exn :=
  | RuntimeError (msg : string)
  | ZeroDivisionError
  | IndexError
  | KeyError (k : string)
  | AttributeError (attr : string)
  | TypeError
  | ValueError
  | HTTPError (status : Z)
  | ConnectionError.

(** [str(e)] of an exception, as used in f-strings. *)
Definition py_str_exn (e : exn) : string :=
  match e with
  | RuntimeError m => m
  | ZeroDivisionError => "division by zero"
  | IndexError => "list index out of range"
  | KeyError k => k
  | AttributeError a => a
  | TypeError => "TypeError"
  | ValueError => "ValueError"
  | HTTPError _ => "HTTPError"
  | ConnectionError => "ConnectionError"
  end.

(** [str(x)] of an optional exception ([None] prints as "None"). *)
Definition py_str_opt (e : option exn) : string :=
  match e with Some e => py_str_exn e | None => "None" end.

(** A Python computation that returns a value or raises. *)
Inductive result (A : Type) :=
  | Ok (a : A)
  | Error (e : exn).
Arguments Ok {A} a.
Arguments Error {A} e.

Definition is_error {A} (r : result A) : bool :=
  match r with Ok _ => false | Error _ => true end.

(* ------------------------------------------------------------------ *)
(** ** Environment variables and [str.split] *)

(** [os.environ]: a partial map from names to values. *)
Definition env := string -> option string.

(** [os.getenv(k, d)]: the value if set (even if empty), else [d]. *)
Definition getenv (E : env) (k d : string) : string :=
  match E k with Some v => v | None => d end.

(** [s.split(sep)] for a one-character separator: no stripping, empty
    fields kept, [""] splits to [[""]]. *)
Fixpoint split_aux (sep : Ascii.ascii) (s cur : string) : list string :=
  match s with
  | EmptyString => [cur]
  | String ch rest =>
      if Ascii.eqb ch sep then cur :: split_aux sep rest ""
      else split_aux sep rest (cur ++ String ch "")
  end.

Definition py_split (sep : Ascii.ascii) (s : string) : list string :=
  split_aux sep s "".

(* ------------------------------------------------------------------ *)
(** ** providers/llm_client.py *)

Module LLM.

(** The four provider methods [_piapi], [_groq], [_openai], [_deepseek]. *)
Inductive provider := Piapi | Groq | OpenAI | DeepSeek.

(** The arguments every provider method receives. *)
Record request := mkRequest {
  system_prompt : string;
  user_prompt : string;
  temperature : Q;
  max_tokens : Z
}.

(** The outcome of each provider method on a request: the response
    [choices[0].message.content], or the exception it raises (missing API
    key, HTTP error, malformed JSON, ...). The methods perform HTTP calls,
    so their outcome is an input of the model. *)
Definition outcomes := provider -> request -> result string.

(** The chain of [if provider == "..."] tests in [generate]. *)
Definition dispatch (name : string) : option provider :=
  if String.eqb name "piapi" then Some Piapi
  else if String.eqb name "groq" then Some Groq
  else if String.eqb name "openai" then Some OpenAI
  else if String.eqb name "deepseek" then Some DeepSeek
  else None.

Definition is_known (name : string) : bool :=
  match dispatch name with Some _ => true | None => false end.

(** The object state of an [LLMClient]. *)
Record client := mkClient {
  order : list string;
  default_provider : string;
  active_provider : option string
}.

Definition default_order := "piapi,groq,openai,deepseek".

Definition comma : Ascii.ascii := Ascii.ascii_of_nat 44.

(** [__init__(self, provider=None)]; [provider or ...] falls back to the
    environment for [None] and for the empty string. *)
Definition init (provider : option string) (E : env) : client :=
  {| order := py_split comma (getenv E "LLM_FALLBACK_ORDER" default_order);
     default_provider :=
       match provider with
       | Some p => if String.eqb p "" then getenv E "LLM_PROVIDER" "piapi" else p
       | None => getenv E "LLM_PROVIDER" "piapi"
       end;
     active_provider := None |}.

Definition failure_message (last_error : option exn) : string :=
  "Falha em todos os providers. Último erro: " ++ py_str_opt last_error.

(** The [for provider in self.order] loop of [generate]. It returns the
    result, the final [self.active_provider], and the names whose provider
    method was called, in call order. A name matching none of the four
    tests sets [active_provider] and falls through to the next iteration
    without a call. *)
Fixpoint gen_loop (out : outcomes) (req : request) (names : list string)
    (last_error : option exn) (active : option string)
    : result string * option string * list string :=
  match names with
  | [] => (Error (RuntimeError (failure_message last_error)), active, [])
  | name :: rest =>
      match dispatch name with
      | Some p =>
          match out p req with
          | Ok text => (Ok text, Some name, [name])
          | Error e =>
              let '(r, a, calls) := gen_loop out req rest (Some e) (Some name) in
              (r, a, name :: calls)
          end
      | None => gen_loop out req rest last_error (Some name)
      end
  end.

(** [generate(self, system_prompt, user_prompt, temperature, max_tokens)]:
    the result, the client after the call, and the providers called. *)
Definition generate (c : client) (out : outcomes) (req : request)
    : result string * client * list string :=
  let '(r, a, calls) := gen_loop out req (order c) None (active_provider c) in
  (r, {| order := order c; default_provider := default_provider c;
         active_provider := a |}, calls).

(** Statement helpers: the outcome of the provider a name dispatches to
    ([None] for a name matching no provider), and the error of the last
    provider in the order whose call raised. *)
Definition call_outcome (out : outcomes) (req : request) (name : string)
    : option (result string) :=
  match dispatch name with Some p => Some (out p req) | None => None end.

Definition fails (out : outcomes) (req : request) (name : string) : Prop :=
  exists e, call_outcome out req name = Some (Error e).

Definition last_provider_error (out : outcomes) (req : request) (names : list string)
    : option exn :=
  head (rev (omap (fun n => match call_outcome out req n with
                            | Some (Error e) => Some e
                            | _ => None
                            end) names)).

End LLM.

(* ------------------------------------------------------------------ *)
(** ** Python values, dicts and [int()] *)

(** The Python values [json.load] can return. *)
Inductive pyval :=
  | PNone
  | PBool (b : bool)
  | PInt (z : Z)
  | PFloat (q : Q)
  | PStr (s : string)
  | PList (l : list pyval)
  | PDict (d : list (string * pyval)).

(** [d.get(k)] on a dict kept as an insertion-ordered association list. *)
Fixpoint dict_get (k : string) (d : list (string * pyval)) : option pyval :=
  match d with
  | [] => None
  | (k', v) :: rest => if String.eqb k k' then Some v else dict_get k rest
  end.

(** [d[k] = v]: an existing key keeps its position, a new key goes last. *)
Fixpoint dict_set (k : string) (v : pyval) (d : list (string * pyval))
    : list (string * pyval) :=
  match d with
  | [] => [(k, v)]
  | (k', v') :: rest =>
      if String.eqb k k' then (k', v) :: rest else (k', v') :: dict_set k v rest
  end.

Definition is_space (c : Ascii.ascii) : bool :=
  match Ascii.nat_of_ascii c with
  | 9 | 10 | 11 | 12 | 13 | 28 | 29 | 30 | 31 | 32 | 133 | 160 => true
  | _ => false
  end.

Fixpoint lstrip (s : string) : string :=
  match s with
  | String c rest => if is_space c then lstrip rest else s
  | EmptyString => EmptyString
  end.

Definition rev_string (s : string) : string :=
  String.string_of_list_ascii (List.rev (String.list_ascii_of_string s)).

(** [s.strip()]: a character is one code point below 256, and the
    whitespace is that of [str.isspace] there. *)
Definition py_strip (s : string) : string := rev_string (lstrip (rev_string (lstrip s))).

(** The whitespace [int()] skips around a number: the ASCII whitespace of
    C's [isspace] and the non-ASCII code points [str.isspace] accepts
    (U+0085, U+00A0); U+001C to U+001F are refused. *)
Definition int_space (c : Ascii.ascii) : bool :=
  match Ascii.nat_of_ascii c with
  | 9 | 10 | 11 | 12 | 13 | 32 | 133 | 160 => true
  | _ => false
  end.

Fixpoint strip_left (sp : Ascii.ascii -> bool) (s : string) : string :=
  match s with
  | String c rest => if sp c then strip_left sp rest else s
  | EmptyString => EmptyString
  end.

Definition strip_by (sp : Ascii.ascii -> bool) (s : string) : string :=
  rev_string (strip_left sp (rev_string (strip_left sp s))).

(** Decimal digits with single underscores between them: the value and
    the number of digits; [after_digit] says whether the last character
    read was a digit. *)
Fixpoint digits_us (s : string) (acc : Z) (cnt : nat) (after_digit : bool)
    : option (Z * nat) :=
  match s with
  | EmptyString => if after_digit then Some (acc, cnt) else None
  | String c rest =>
      let n := Ascii.nat_of_ascii c in
      if (48 <=? n)%nat && (n <=? 57)%nat
      then digits_us rest (10 * acc + Z.of_nat (n - 48)) (S cnt) true
      else if (n =? 95)%nat && after_digit then digits_us rest acc cnt false
      else None
  end.

(** [sys.get_int_max_str_digits()] by default: longer decimal strings raise. *)
Definition int_max_str_digits : nat := 4300.

Definition parse_unsigned (s : string) : option Z :=
  match digits_us s 0 0 false with
  | Some (z, cnt) => if (cnt <=? int_max_str_digits)%nat then Some z else None
  | None => None
  end.

(** [int(s)] for a string: surrounding whitespace, an optional sign and
    decimal digits, with single underscores allowed between digits. *)
Definition int_of_string (s : string) : result Z :=
  let t := strip_by int_space s in
  let r := match t with
           | String c rest =>
               if Ascii.eqb c (Ascii.ascii_of_nat 45) then option_map Z.opp (parse_unsigned rest)
               else if Ascii.eqb c (Ascii.ascii_of_nat 43) then parse_unsigned rest
               else parse_unsigned t
           | EmptyString => None
           end in
  match r with Some z => Ok z | None => Error ValueError end.

(** [int(v)]: integers as they are, booleans as 0/1, floats truncated
    toward zero, strings parsed; [None], lists and dicts raise. *)
Definition py_int (v : pyval) : result Z :=
  match v with
  | PInt z => Ok z
  | PBool b => Ok (if b then 1 else 0)%Z
  | PFloat q => Ok (Z.quot (Qnum q) (Zpos (Qden q)))
  | PStr s => int_of_string s
  | PNone | PList _ | PDict _ => Error TypeError
  end.

(* ------------------------------------------------------------------ *)
(** ** Files and the state/error monad *)

(** A file as [json.load] sees it: the value it decodes to, or contents
    that are not JSON ([json.load] raises [JSONDecodeError], a
    [ValueError]). *)
Inductive file :=
  | FJson (v : pyval)
  | FRaw.

(** The outside world the scripts act on: the files by path, and the
    Telegram messages delivered so far, as (chat id, text). *)
Record world := mkWorld {
  files : gmap string file;
  delivered : list (string * string)
}.

Definition M (A : Type) := world -> result A * world.

Definition ret {A} (a : A) : M A := fun w => (Ok a, w).
Definition raise {A} (e : exn) : M A := fun w => (Error e, w).
Definition bind {A B} (m : M A) (f : A -> M B) : M B :=
  fun w => match m w with
           | (Ok a, w') => f a w'
           | (Error e, w') => (Error e, w')
           end.
(** [try: m except Exception: h]. *)
Definition try_except {A} (m : M A) (h : exn -> M A) : M A :=
  fun w => match m w with
           | (Ok a, w') => (Ok a, w')
           | (Error e, w') => h e w'
           end.

Notation "'let*' x ':=' m 'in' k" := (bind m (fun x => k))
  (at level 200, x name, m at level 100, k at level 200).

Definition of_result {A} (r : result A) : M A :=
  match r with Ok a => ret a | Error e => raise e end.

(** [os.path.exists(path)]. *)
Definition path_exists (path : string) : M bool :=
  fun w => (Ok (bool_decide (is_Some (files w !! path))), w).

(** [json.load(open(path, 'r'))]; a missing file raises on [open]. *)
Definition json_load (path : string) : M pyval :=
  fun w => match files w !! path with
           | Some (FJson v) => (Ok v, w)
           | Some FRaw => (Error ValueError, w)
           | None => (Error (RuntimeError "FileNotFoundError"), w)
           end.

(** [json.dump(v, open(path, 'w'))]. *)
Definition json_dump (v : pyval) (path : string) : M unit :=
  fun w => (Ok tt, {| files := <[path := FJson v]> (files w);
                      delivered := delivered w |}).

(** [ensure_dir_for_file]: directories are not modelled. *)
Definition ensure_dir_for_file (path : string) : M unit := ret tt.

(* ------------------------------------------------------------------ *)
(** ** scripts/oil/tools.py *)

(** The key looked up by [data.get(key, 0)]: the default [0] when absent. *)
Definition get_or_zero (key : string) (d : list (string * pyval)) : pyval :=
  match dict_get key d with Some v => v | None => PInt 0 end.

(** [title_counter(counter_path, key)]. Only the load is inside the [try];
    a loaded value that is not a dict has no [.get] and raises. *)
Definition title_counter (counter_path key : string) : M Z :=
  let* _ := ensure_dir_for_file counter_path in
  let* data := try_except
                 (let* ex := path_exists counter_path in
                  if ex then json_load counter_path else ret (PDict []))
                 (fun _ => ret (PDict [])) in
  match data with
  | PDict d =>
      let* n := of_result (py_int (get_or_zero key d)) in
      let d' := dict_set key (PInt (n + 1)) d in
      let* _ := json_dump (PDict d') counter_path in
      ret (n + 1)%Z
  | _ => raise (AttributeError "get")
  end.

(** [data.get('last_sent') == today_tag] inside the [try] of [sent_guard]. *)
Definition sentinel_is_today (today_tag : string) (data : pyval) : M bool :=
  match data with
  | PDict d =>
      ret (match dict_get "last_sent" d with
           | Some (PStr s) => String.eqb s today_tag
           | _ => false
           end)
  | _ => raise (AttributeError "get")
  end.

(** [sent_guard(path)]; [today_tag] is
    [(datetime.now(timezone.utc) + BRT_OFFSET).strftime('%Y-%m-%d')]. *)
Definition sent_guard (today_tag path : string) : M bool :=
  let* _ := ensure_dir_for_file path in
  let* ex := path_exists path in
  let* already := if ex
                  then try_except (let* data := json_load path in
                                   sentinel_is_today today_tag data)
                                  (fun _ => ret false)
                  else ret false in
  if already then ret true
  else let* _ := json_dump (PDict [("last_sent", PStr today_tag)]) path in
       ret false.

(** Record a Telegram message as delivered. *)
Definition deliver (chat text : string) : M unit :=
  fun w => (Ok tt, {| files := files w; delivered := delivered w ++ [(chat, text)] |}).

(** [send_to_telegram(text, preview)]; [post_ok] is whether the POST and
    [raise_for_status] succeed. It never raises: failures are printed. *)
Definition send_to_telegram (E : env) (post_ok : bool) (text : string) (preview : bool)
    : M unit :=
  let bot_token := py_strip (getenv E "TELEGRAM_BOT_TOKEN" "") in
  let chat_main := py_strip (getenv E "TELEGRAM_CHAT_ID_ENERGY" "") in
  let chat_test := py_strip (getenv E "TELEGRAM_CHAT_ID_TEST" "") in
  let chat := if preview && negb (String.eqb chat_test "") then chat_test else chat_main in
  if String.eqb bot_token "" || String.eqb chat "" then ret tt
  else if post_ok then deliver chat text
  else ret tt.

(* ------------------------------------------------------------------ *)
(** ** scripts/oil/fetch_prices.py *)

(** Python truthiness of a value. *)
Definition py_truthy (v : pyval) : bool :=
  match v with
  | PNone => false
  | PBool b => b
  | PInt z => negb (Z.eqb z 0)
  | PFloat q => negb (Qeq_bool q 0)
  | PStr s => negb (String.eqb s "")
  | PList l => negb (bool_decide (l = []))
  | PDict d => negb (bool_decide (d = []))
  end.

Fixpoint frac_digits (s : string) (num : Z) (den : positive) : option Q :=
  match s with
  | EmptyString => Some (num # den)
  | String c rest =>
      let n := Ascii.nat_of_ascii c in
      if (48 <=? n)%nat && (n <=? 57)%nat
      then frac_digits rest (10 * num + Z.of_nat (n - 48)) (10 * den)
      else None
  end.

(** An unsigned decimal [digits[.digits]]. *)
Fixpoint unsigned_decimal (s : string) (acc : Z) : option Q :=
  match s with
  | EmptyString => Some (inject_Z acc)
  | String c rest =>
      let n := Ascii.nat_of_ascii c in
      if Ascii.eqb c (Ascii.ascii_of_nat 46) then frac_digits rest acc 1
      else if (48 <=? n)%nat && (n <=? 57)%nat
      then unsigned_decimal rest (10 * acc + Z.of_nat (n - 48))
      else None
  end.

(** [float(s)] for a string: whitespace, optional sign and a plain decimal
    (exponents, [inf] and [nan] are not modelled). *)
Definition float_of_string (s : string) : result Q :=
  let t := py_strip s in
  let r := match t with
           | EmptyString => None
           | String c rest =>
               if Ascii.eqb c (Ascii.ascii_of_nat 45) then option_map Qopp (unsigned_decimal rest 0)
               else if Ascii.eqb c (Ascii.ascii_of_nat 43) then unsigned_decimal rest 0
               else unsigned_decimal t 0
           end in
  match r with Some q => Ok q | None => Error ValueError end.

(** [float(v)]; float values are modelled as exact rationals. *)
Definition py_float (v : pyval) : result Q :=
  match v with
  | PInt z => Ok (inject_Z z)
  | PBool b => Ok (if b then 1 else 0)%Q
  | PFloat q => Ok q
  | PStr s => float_of_string s
  | PNone | PList _ | PDict _ => Error TypeError
  end.

(** Round half to even to an integer. *)
Definition round_half_even (q : Q) : Z :=
  let f := Qfloor q in
  let r := (q - inject_Z f)%Q in
  if negb (Qle_bool (1 # 2) r) then f
  else if negb (Qle_bool r (1 # 2)) then (f + 1)%Z
  else if Z.even f then f else (f + 1)%Z.

(** [round(x, 2)] on the exact rational value of [x]; the binary
    floating-point value Python rounds is not modelled. *)
Definition py_round2 (q : Q) : Q := round_half_even (q * 100)%Q # 100.

(** The HTTP answer of [requests.get] in [_alpha_vantage_fx]: the status
    code and what [resp.json()] returns or raises. *)
Record http_response := mkResponse {
  status_code : Z;
  json_body : result pyval
}.

(** [_alpha_vantage_fx(symbol)]; [get] is the outcome of [requests.get]
    (a response, or a raised connection error / timeout). *)
Definition alpha_vantage_fx (alpha_key : string) (get : string -> result http_response)
    (symbol : string) : result Q :=
  if String.eqb alpha_key "" then Error (RuntimeError "ALPHA_VANTAGE_API_KEY not set")
  else
    match get symbol with
    | Error e => Error e
    | Ok resp =>
        if negb (Z.eqb (status_code resp) 200) then Error (RuntimeError "AlphaVantage request failed")
        else
          match json_body resp with
          | Error e => Error e
          | Ok (PDict data) =>
              let ts := match dict_get "Time Series (Daily)" data with
                        | Some v => v | None => PDict [] end in
              if negb (py_truthy ts) then Error (RuntimeError "AlphaVantage returned no time series")
              else
                match ts with
                | PDict ((_, PDict latest) :: _) =>
                    py_float (match dict_get "4. close" latest with
                              | Some v => v | None => PFloat 0 end)
                | PDict ((_, _) :: _) => Error (AttributeError "get")
                | PDict [] => Error (RuntimeError "StopIteration")
                | _ => Error (AttributeError "values")
                end
          | Ok _ => Error (AttributeError "get")
          end
    end.

Definition price_dict (wti brent spread : Q) : list (string * Q) :=
  [("wti", wti); ("brent", brent); ("spread", spread)].

(** [_mock_prices()]: [rnd] is [random.random()] in [[0,1)] and [unif] is
    [random.uniform(-3, 5)]. Sums and differences are exact rationals:
    floating-point rounding is not modelled. *)
Definition mock_prices (rnd unif : Q) : list (string * Q) :=
  let wti := py_round2 (70 + rnd * 10)%Q in
  let brent := py_round2 (wti + unif)%Q in
  price_dict wti brent (py_round2 (brent - wti)%Q).

(** [fetch_prices()]: AlphaVantage when [ALPHA_KEY] is set and both
    lookups succeed; any exception there is printed and falls through;
    the Nasdaq branch is a [pass]; finally the mock prices. *)
Definition fetch_prices (alpha_key : string) (get : string -> result http_response)
    (rnd unif : Q) : result (list (string * Q)) :=
  let alpha :=
    if negb (String.eqb alpha_key "") then
      match alpha_vantage_fx alpha_key get "WTI" with
      | Ok wti =>
          match alpha_vantage_fx alpha_key get "BRENT" with
          | Ok brent => Some (price_dict (py_round2 wti) (py_round2 brent) (py_round2 (brent - wti)%Q))
          | Error _ => None
          end
      | Error _ => None
      end
    else None in
  match alpha with
  | Some d => Ok d
  | None => Ok (mock_prices rnd unif)
  end.

(* ------------------------------------------------------------------ *)
(** ** scripts/oil/oil_daily.py *)

Module OilDaily.

(** The parsed command line. *)
Record args := mkArgs {
  send_telegram : bool;
  force : bool;
  preview : bool;
  counter_path : string;
  sent_path : option string;
  provider : option string
}.

(** What a run reads from outside: environment variables, the clock
    (the sentinel's date tag, the title date and the elapsed seconds as
    formatted), the float formatting of prices, the AlphaVantage HTTP
    answers, the two random draws of [_mock_prices], the outcome of each
    LLM provider call and whether the Telegram POST succeeds. *)
Record run_inputs := mkInputs {
  E : env;
  today_tag : string;
  today_title : string;
  elapsed : string;
  float_repr : Q -> string;
  alpha_get : string -> result http_response;
  rnd : Q;
  unif : Q;
  llm : LLM.outcomes;
  tg_post_ok : bool
}.

Definition nl : string := String (Ascii.ascii_of_nat 10) "".

(** [html.escape(s)] (with [quote=True]). *)
Fixpoint html_escape (s : string) : string :=
  match s with
  | EmptyString => ""
  | String c rest =>
      let e := match Ascii.nat_of_ascii c with
               | 38 => "&amp;" | 60 => "&lt;" | 62 => "&gt;"
               | 34 => "&quot;" | 39 => "&#x27;"
               | _ => String c "" end in
      e ++ html_escape rest
  end.

(** [prices[k]]: a missing key raises [KeyError]. *)
Definition price_at (k : string) (d : list (string * Q)) : result Q :=
  match list_find (fun kv => kv.1 = k) d with
  | Some (_, (_, v)) => Ok v
  | None => Error (KeyError k)
  end.

(** [build_context_block()]. *)
Definition build_context_block (I : run_inputs) : result string :=
  match fetch_prices (py_strip (getenv (E I) "ALPHA_VANTAGE_API_KEY" "")) (alpha_get I)
          (rnd I) (unif I) with
  | Error e => Error e
  | Ok prices =>
      match price_at "wti" prices, price_at "brent" prices, price_at "spread" prices with
      | Ok w, Ok b, Ok s =>
          Ok ("- Preços: WTI ~ $" ++ float_repr I w ++ " ; Brent ~ $" ++ float_repr I b
              ++ " ; Spread (Brent-WTI) ~ $" ++ float_repr I s ++ nl
              ++ "- Inventários (EIA/API/FRED): placeholder — integrar API para valores reais." ++ nl
              ++ "- Produção: EUA / OPEP+ — estimativas e ritmo de recuperação." ++ nl
              ++ "- Curva de Futuros: contango/backwardation (verificar curva de maturidades)." ++ nl
              ++ "- Refinarias / Crack Spreads: status atual e demanda por derivados." ++ nl
              ++ "- Geopolítica: eventos recentes e riscos de oferta.")
      | Error e, _, _ | _, Error e, _ | _, _, Error e => Error e
      end
  end.

Definition system_msg : string :=
  "Você é um analista financeiro sênior. Escreva em PT-BR, objetivo e claro, "
  ++ "com dados e interpretação executiva. Evite jargão; mantenha coesão macro/indústria.".

(** The user prompt, after [.strip()]. *)
Definition user_msg (contexto : string) : string :=
  "Gere um **Relatório Diário — Petróleo (WTI & Brent)** estruturado nos **10 tópicos abaixo**." ++ nl
  ++ "Seja específico e conciso. Numere exatamente de 1 a 10." ++ nl ++ nl
  ++ "1) Preços (WTI / Brent)" ++ nl ++ "2) Spread Brent–WTI" ++ nl
  ++ "3) Inventários (EIA/API/FRED)" ++ nl ++ "4) Produção (EUA / OPEP+)" ++ nl
  ++ "5) Curva de Futuros" ++ nl ++ "6) Demanda Global (IEA/OECD)" ++ nl
  ++ "7) Refinarias / Crack Spreads" ++ nl ++ "8) Geopolítica" ++ nl
  ++ "9) Interpretação Executiva (bullet points objetivos, até 5 linhas)" ++ nl
  ++ "10) Conclusão (1 parágrafo, curto e médio prazo)" ++ nl ++ nl
  ++ "Baseie-se no contexto factual levantado:" ++ nl ++ py_strip contexto.

(** [provider_hint or None]. *)
Definition or_none (s : option string) : option string :=
  match s with Some p => if String.eqb p "" then None else Some p | None => None end.

(** [gerar_analise_oil(contexto_textual, provider_hint)]: the text and
    [llm.active_provider]. *)
Definition gerar_analise_oil (I : run_inputs) (contexto : string) (provider_hint : option string)
    : result (string * option string) :=
  let c := LLM.init (or_none provider_hint) (E I) in
  let req := LLM.mkRequest system_msg (user_msg contexto) (4 # 10) 1800 in
  match LLM.generate c (llm I) req with
  | (Ok texto, c', _) => Ok (texto, LLM.active_provider c')
  | (Error e, _, _) => Error e
  end.

Definition default_sent_path := "data/sentinels/oil_daily.sent".

(** [args.sent_path or "data/sentinels/oil_daily.sent"]. *)
Definition sent_path_of (a : args) : string :=
  match sent_path a with
  | Some p => if String.eqb p "" then default_sent_path else p
  | None => default_sent_path
  end.

(** [main()] after argument parsing. *)
Definition main (I : run_inputs) (a : args) : M unit :=
  let sp := sent_path_of a in
  let* already := if force a then ret false else sent_guard (today_tag I) sp in
  if already then ret tt
  else
    let* numero := title_counter (counter_path a) "diario_oil" in
    let titulo := "📊 Dados de Mercado — Petróleo (WTI & Brent) — " ++ today_title I
                  ++ " — Diário — Nº " ++ pretty numero in
    let* contexto := of_result (build_context_block I) in
    let* out := of_result (gerar_analise_oil I contexto (provider a)) in
    let corpo := py_strip out.1 in
    let provider_usado := match out.2 with Some p => p | None => "None" end in
    let texto_final := "<b>" ++ html_escape titulo ++ "</b>" ++ nl ++ nl ++ corpo ++ nl ++ nl
                       ++ "<i>Provedor LLM: " ++ html_escape provider_usado ++ " • "
                       ++ elapsed I ++ "s</i>" in
    if send_telegram a then send_to_telegram (E I) (tg_post_ok I) texto_final (preview a)
    else ret tt.

End OilDaily.

(* ------------------------------------------------------------------ *)
(** ** Metrics calculators *)

Module Metrics.

(** A Python float: a finite value (as an exact rational) or [nan];
    infinities are not modelled. Rounding of the float operations is not
    modelled either. *)
Inductive pyfloat := Fin (q : Q) | NaN.

Definition fsub (a b : pyfloat) : pyfloat :=
  match a, b with Fin x, Fin y => Fin (x - y) | _, _ => NaN end.

Definition fmul (a b : pyfloat) : pyfloat :=
  match a, b with Fin x, Fin y => Fin (x * y) | _, _ => NaN end.

(** [a / b]: dividing by zero raises, even when [a] is [nan]. *)
Definition fdiv (a b : pyfloat) : result pyfloat :=
  match b with
  | Fin y => if Qeq_bool y 0 then Error ZeroDivisionError
             else match a with Fin x => Ok (Fin (x / y)) | NaN => Ok NaN end
  | NaN => Ok NaN
  end.

(** [x != 0] ([nan != 0] is [True]). *)
Definition fne0 (a : pyfloat) : bool :=
  match a with Fin x => negb (Qeq_bool x 0) | NaN => true end.

(** [a > b] and [a < b] ([False] as soon as one side is [nan]). *)
Definition fgt (a b : pyfloat) : bool :=
  match a, b with Fin x, Fin y => negb (Qle_bool x y) | _, _ => false end.
Definition flt (a b : pyfloat) : bool := fgt b a.

Definition zero : pyfloat := Fin 0.
Definition hundred : pyfloat := Fin 100.

(** [(delta / prev) * 100 if prev != 0 else 0.0], shared verbatim by every
    calculator below. *)
Definition pct_of (delta prev : pyfloat) : result pyfloat :=
  if fne0 prev then
    match fdiv delta prev with Ok r => Ok (fmul r hundred) | Error e => Error e end
  else Ok zero.

(** [xs[-1]] and [xs[-2]]. *)
Definition nth_last {A} (n : nat) (xs : list A) : result A :=
  match List.nth_error (List.rev xs) n with Some x => Ok x | None => Error IndexError end.

(** An observation of a FRED series: its date and the value as [float()]
    returns it (the filtering of "", "." and [None] happens upstream). *)
Record obs := mkObs { date : string; value : pyfloat }.

Record metrics := mkMetrics {
  last_value : pyfloat;
  last_date : string;
  prev_value : option pyfloat;
  prev_date : option string;
  delta : pyfloat;
  pct_change : pyfloat;
  trend : string
}.

(** [compute_metrics(obs)] of jkm_lng_daily.py, rbob_daily.py and
    coal_daily.py; they differ only in the trend threshold [th]. *)
Definition compute_metrics (th : Q) (os : list obs) : result metrics :=
  match nth_last 0 os with
  | Error e => Error e
  | Ok last =>
      let prev_part :=
        if (2 <=? length os)%nat then
          match nth_last 1 os with
          | Ok prev =>
              let d := fsub (value last) (value prev) in
              match pct_of d (value prev) with
              | Ok p => Ok (Some (value prev), Some (date prev), d, p)
              | Error e => Error e
              end
          | Error e => Error e
          end
        else Ok (None, None, zero, zero) in
      match prev_part with
      | Error e => Error e
      | Ok (pv, pd, d, p) =>
          let tr := if fgt p (Fin th) then "alta"
                    else if flt p (Fin (- th)) then "queda"
                    else "estabilidade" in
          Ok (mkMetrics (value last) (date last) pv pd d p tr)
      end
  end.

Definition compute_metrics_jkm := compute_metrics 1.
Definition compute_metrics_rbob := compute_metrics (3 # 4).
Definition compute_metrics_coal := compute_metrics (1 # 2).

(** A DataFrame row: the [date] column (as a day number) and the value
    column ([NaN] for a missing value, where [pd.notna] is false). Rows
    are dated: a [NaT] date, which [pd.to_datetime(errors=coerce)] gives
    and [sort_values] puts last, is not modelled. *)
Record row := mkRow { rdate : Z; rvalue : pyfloat }.

Definition notna (v : pyfloat) : bool := match v with NaN => false | Fin _ => true end.

Fixpoint insert_row (r : row) (rs : list row) : list row :=
  match rs with
  | [] => [r]
  | r' :: rest => if Z.leb (rdate r) (rdate r') then r :: r' :: rest else r' :: insert_row r rest
  end.

(** [df.sort_values("date")]: a sort by date. pandas' default quicksort
    does not fix the order of equal dates; this one keeps input order. *)
Fixpoint sort_rows (rs : list row) : list row :=
  match rs with [] => [] | r :: rest => insert_row r (sort_rows rest) end.

Record stats := mkStats { sdate : Z; svalue : option pyfloat; sdelta : pyfloat; spct : pyfloat }.

(** [latest_stats(df, value_col)] of format_energy_weekly_summary.py,
    format_telegram_inventory.py, build_energy_dashboard.py and (for these
    fields) build_energy_dashboard_html.py. *)
Definition latest_stats (rows : list row) : result (option stats) :=
  match rows with
  | [] => Ok None
  | _ =>
      let df := sort_rows rows in
      match nth_last 0 df with
      | Error e => Error e
      | Ok latest =>
          let v_latest := if notna (rvalue latest) then Some (rvalue latest) else None in
          let prev := if (2 <=? length df)%nat then Some (nth_last 1 df) else None in
          let dp := match prev, v_latest with
                    | Some (Ok p), Some vl =>
                        if notna (rvalue p) then
                          let d := fsub vl (rvalue p) in
                          match pct_of d (rvalue p) with
                          | Ok pc => Ok (d, pc)
                          | Error e => Error e
                          end
                        else Ok (zero, zero)
                    | Some (Error e), _ => Error e
                    | _, _ => Ok (zero, zero)
                    end in
          match dp with
          | Ok (d, pc) => Ok (Some (mkStats (rdate latest) v_latest d pc))
          | Error e => Error e
          end
      end
  end.

(** [crude_4w_trend(df)]: the change against the value four rows back. *)
Definition crude_4w_trend (rows : list row) : result (option (pyfloat * pyfloat)) :=
  if (length rows <? 5)%nat then Ok None
  else
    let df := sort_rows rows in
    match nth_last 0 df, nth_last 4 df with
    | Ok l, Ok p4 =>
        let d := fsub (rvalue l) (rvalue p4) in
        match pct_of d (rvalue p4) with
        | Ok pc => Ok (Some (d, pc))
        | Error e => Error e
        end
    | Error e, _ | _, Error e => Error e
    end.

(** The price change in the FRED context blocks of uranium_daily_llm.py,
    jet_fuel_daily_llm.py and ulsd_daily_llm.py (delta and delta_pct). *)
Definition price_change (rows : list row) : result (pyfloat * pyfloat) :=
  let df := sort_rows rows in
  match nth_last 0 df with
  | Error e => Error e
  | Ok last =>
      if (1 <? length df)%nat then
        match nth_last 1 df with
        | Ok prev =>
            let d := fsub (rvalue last) (rvalue prev) in
            match pct_of d (rvalue prev) with
            | Ok pc => Ok (d, pc)
            | Error e => Error e
            end
        | Error e => Error e
        end
      else Ok (zero, zero)
  end.

End Metrics.

(* ------------------------------------------------------------------ *)
(** ** The provider methods of providers/llm_client.py *)

Module LLMProviders.
Import LLM.

(** The environment variable each provider method reads its key from. *)
Definition key_name (p : provider) : string :=
  match p with
  | Piapi => "PIAPI_API_KEY"
  | Groq => "GROQ_API_KEY"
  | OpenAI => "OPENAI_API_KEY"
  | DeepSeek => "DEEPSEEK_API_KEY"
  end.

(** [api_key = os.getenv(KEY)]; [if not api_key: raise RuntimeError("KEY faltando")]. *)
Definition missing_key (p : provider) : exn := RuntimeError (key_name p ++ " faltando").

(** [_piapi], [_groq], [_openai] and [_deepseek]: the key check, then the
    POST, [raise_for_status()] and [r.json()["choices"][0]["message"]["content"]],
    whose outcome is [post p req]. *)
Definition provider_call (E : env) (post : outcomes) : outcomes := fun p req =>
  match E (key_name p) with
  | Some k => if String.eqb k "" then Error (missing_key p) else post p req
  | None => Error (missing_key p)
  end.

End LLMProviders.

(* ------------------------------------------------------------------ *)
(** ** scripts/gas/fetch_prices.py *)

Module GasPrices.

(** [v.get(k, default)]: only a dict has [.get]. *)
Definition py_get (v : pyval) (k : string) (dflt : pyval) : result pyval :=
  match v with
  | PDict d => Ok (match dict_get k d with Some x => x | None => dflt end)
  | _ => Error (AttributeError "get")
  end.

(** [v[i]] for a non-negative integer [i]: a list or string is indexed, a
    dict decoded from JSON has only string keys, anything else is not
    subscriptable. *)
Definition py_index (v : pyval) (i : nat) : result pyval :=
  match v with
  | PList l => match nth_error l i with Some x => Ok x | None => Error IndexError end
  | PStr s => match String.get i s with Some c => Ok (PStr (String c "")) | None => Error IndexError end
  | PDict _ => Error (KeyError (pretty (Z.of_nat i)))
  | _ => Error TypeError
  end.

(** [r.raise_for_status()]: 4xx and 5xx answers raise [HTTPError]. *)
Definition raise_for_status (r : http_response) : result unit :=
  if Z.leb 400 (status_code r) && Z.ltb (status_code r) 600
  then Error (HTTPError (status_code r)) else Ok tt.

(** [round(x, 3)] on the exact rational value of [x]; the binary
    floating-point value Python rounds is not modelled. *)
Definition py_round3 (q : Q) : Q := round_half_even (q * 1000)%Q # 1000.

Definition price_dict (spot front_month : Q) : list (string * pyval) :=
  [("henry_hub_spot", PFloat spot); ("front_month", PFloat front_month); ("unit", PStr "USD/MMBtu")].

(** [_mock_prices()]: [rnd] is [random.random()] and [unif] is
    [random.uniform(-0.2, 0.2)]. Sums are exact rationals:
    floating-point rounding is not modelled. *)
Definition mock_prices (rnd unif : Q) : list (string * pyval) :=
  let base := ((7 # 2) + rnd * (5 # 2))%Q in
  let hub := py_round3 base in
  let front_month := py_round3 (base + unif)%Q in
  let spot := hub in
  price_dict spot front_month.

(** [fetch_from_eia()]; [get series_id] is the HTTP answer of the request
    for that series. *)
Definition fetch_from_eia (eia_key : string) (E : env) (get : string -> result http_response)
    : result (list (string * pyval)) :=
  if String.eqb eia_key "" then Error (RuntimeError "EIA_API_KEY not set")
  else
    let series_id := getenv E "EIA_SERIES_ID" "NG.RNGWHHD.D" in
    match get series_id with
    | Error e => Error e
    | Ok r =>
    match raise_for_status r with
    | Error e => Error e
    | Ok _ =>
    match json_body r with
    | Error e => Error e
    | Ok data =>
    match py_get data "series" (PList []) with
    | Error e => Error e
    | Ok series =>
    if negb (py_truthy series) then Error (RuntimeError "EIA returned empty series")
    else
    match py_index series 0 with
    | Error e => Error e
    | Ok s0 =>
    match py_get s0 "data" (PList []) with
    | Error e => Error e
    | Ok dl =>
    match py_index dl 0 with
    | Error e => Error e
    | Ok latest =>
    match py_index latest 1 with
    | Error e => Error e
    | Ok v =>
    match py_float v with
    | Error e => Error e
    | Ok value => Ok (price_dict (py_round3 value) (py_round3 value))
    end end end end end end end end end.

(** [fetch_from_alpha()]; [get symbol] is the HTTP answer for [symbol]. *)
Definition fetch_from_alpha (alpha_key : string) (E : env) (get : string -> result http_response)
    : result (list (string * pyval)) :=
  if String.eqb alpha_key "" then Error (RuntimeError "ALPHA_VANTAGE_API_KEY not set")
  else
    let symbol := getenv E "ALPHA_NG_SYMBOL" "NG=F" in
    match get symbol with
    | Error e => Error e
    | Ok r =>
    match raise_for_status r with
    | Error e => Error e
    | Ok _ =>
    match json_body r with
    | Error e => Error e
    | Ok j =>
    match py_get j "Time Series (Daily)" (PDict []) with
    | Error e => Error e
    | Ok ts =>
    if negb (py_truthy ts) then Error (RuntimeError "AlphaVantage returned no time series for symbol")
    else
      match ts with
      | PDict ((_, latest) :: _) =>
          match py_get latest "4. close" (PFloat 0) with
          | Error e => Error e
          | Ok c =>
              match py_float c with
              | Error e => Error e
              | Ok close => Ok (price_dict (py_round3 close) (py_round3 close))
              end
          end
      | PDict [] => Error (RuntimeError "StopIteration")
      | _ => Error (AttributeError "values")
      end
    end end end end.

(** [fetch_from_nasdaq()] always raises. *)
Definition fetch_from_nasdaq (nasdaq_key : string) : result (list (string * pyval)) :=
  if String.eqb nasdaq_key "" then Error (RuntimeError "NASDAQ_DATA_LINK_API_KEY not set")
  else Error (RuntimeError "NASDAQ dataset not configured in fetch_from_nasdaq").

(** [if KEY: return fetch()] inside [try ... except Exception]. *)
Definition attempt (key : string) (r : result (list (string * pyval)))
    : option (list (string * pyval)) :=
  if String.eqb key "" then None
  else match r with Ok d => Some d | Error _ => None end.

(** [fetch_prices()]; the keys are the stripped module-level values. The
    FRED branch is a [pass]. *)
Definition fetch_prices (eia_key alpha_key nasdaq_key : string) (E : env)
    (eia_get alpha_get : string -> result http_response) (rnd unif : Q)
    : result (list (string * pyval)) :=
  match attempt eia_key (fetch_from_eia eia_key E eia_get) with
  | Some d => Ok d
  | None =>
      match attempt alpha_key (fetch_from_alpha alpha_key E alpha_get) with
      | Some d => Ok d
      | None =>
          match attempt nasdaq_key (fetch_from_nasdaq nasdaq_key) with
          | Some d => Ok d
          | None => Ok (mock_prices rnd unif)
          end
      end
  end.

End GasPrices.

(* ------------------------------------------------------------------ *)
(** ** Interpretations and messages of format_energy_weekly_summary.py
    and format_telegram_inventory.py *)

Module EnergyFormat.
Import Metrics.

(** [a <= b] and [a >= b] ([False] as soon as one side is [nan]). *)
Definition fle (a b : pyfloat) : bool :=
  match a, b with Fin x, Fin y => Qle_bool x y | _, _ => false end.
Definition fge (a b : pyfloat) : bool := fle b a.

(** [interpret_petroleum(delta_pct)] of format_energy_weekly_summary.py. *)
Definition weekly_interpret_petroleum (delta_pct : pyfloat) : string :=
  if fle delta_pct (Fin (-3 # 2)) then "Bullish — forte queda semanal nos estoques"
  else if fle delta_pct (Fin (-1 # 2)) then "Levemente bullish — estoques recuando"
  else if fge delta_pct (Fin (3 # 2)) then "Bearish — forte aumento semanal nos estoques"
  else if fge delta_pct (Fin (1 # 2)) then "Levemente bearish — estoques subindo"
  else "Neutro — movimento semanal pequeno".

(** [interpret_gas(delta_bcf)] of format_energy_weekly_summary.py. *)
Definition weekly_interpret_gas (delta_bcf : pyfloat) : string :=
  if fle delta_bcf (Fin (-50)) then "Saída excepcional — risco de tightness elevado"
  else if fle delta_bcf (Fin (-10)) then "Saída forte — suporte a preços de gás"
  else if flt delta_bcf (Fin 0) then "Saída moderada — ambiente ligeiramente bullish"
  else if fge delta_bcf (Fin 50) then "Injeção excepcional — cenário de folga"
  else if fge delta_bcf (Fin 10) then "Injeção forte — pressão de baixa no gás"
  else "Movimento moderado — sem grande desvio".

(** [str.upper()] of one ASCII character. *)
Definition ascii_upper (c : Ascii.ascii) : Ascii.ascii :=
  let n := Ascii.nat_of_ascii c in
  if (97 <=? n)%nat && (n <=? 122)%nat then Ascii.ascii_of_nat (n - 32) else c.

(** [texto[0].upper() + texto[1:]] (the clauses all start with an ASCII letter). *)
Definition capitalize (s : string) : string :=
  match s with String c rest => String (ascii_upper c) rest | EmptyString => EmptyString end.

Definition neutral_macro : string :=
  "Quadro semanal relativamente neutro, sem grandes desequilíbrios aparentes.".

Definition crude_clause (s : stats) : string :=
  if fle (spct s) (Fin (-1)) then "estoques de petróleo bruto em queda, sugerindo leve tightening na oferta"
  else if fge (spct s) (Fin 1) then "estoques de petróleo bruto em alta, indicando algum alívio de oferta"
  else "estoques de petróleo bruto praticamente estáveis na semana".

(** [macro_view(crude_stats, products_stats, gas_stats, crude_trend_4w)];
    [None] stands for a missing stats dict, the only falsy value these
    arguments take. *)
Definition macro_view (crude products gas : option stats) (trend4 : option (pyfloat * pyfloat))
    : string :=
  let p1 := match crude with Some s => [crude_clause s] | None => [] end in
  let p2 := match products with
            | Some s =>
                if fle (spct s) (Fin (-1 # 2)) then ["estoques totais (crude + produtos) também recuando"]
                else if fge (spct s) (Fin (1 # 2)) then ["estoques totais (crude + produtos) avançando"]
                else []
            | None => []
            end in
  let p3 := match gas with
            | Some s =>
                if fle (sdelta s) (Fin (-10)) then ["no gás natural, a saída semanal do storage reforça um viés mais apertado"]
                else if fge (sdelta s) (Fin 10) then ["no gás natural, a injeção de volumes aponta para ambiente mais folgado"]
                else []
            | None => []
            end in
  let p4 := match trend4 with
            | Some (_, pct) =>
                if fle pct (Fin (-3)) then ["na janela de 4 semanas, o crude segue em tendência de queda consistente"]
                else if fge pct (Fin 3) then ["na janela de 4 semanas, o crude mostra acúmulo relevante de estoques"]
                else []
            | None => []
            end in
  match (p1 ++ p2 ++ p3 ++ p4)%list with
  | [] => neutral_macro
  | parts => capitalize (String.concat "; " parts) ++ "."
  end.

(** [interpret_petroleum(delta_pct)] of format_telegram_inventory.py. *)
Definition tg_interpret_petroleum (delta_pct : pyfloat) : string :=
  if fle delta_pct (Fin (-1)) then "Bullish — queda >1% WoW nos estoques"
  else if fge delta_pct (Fin 1) then "Bearish — aumento >1% WoW nos estoques"
  else "Estável — sem sinal claro".

(** [interpret_gas(storage_bcf, delta_bcf, hist_avg)] of
    format_telegram_inventory.py; [None] is Python's [None]. *)
Definition tg_interpret_gas (storage_bcf : option pyfloat) (delta_bcf : pyfloat)
    (hist_avg : option pyfloat) : string :=
  match storage_bcf with
  | None => "Sem dados"
  | Some st =>
      if match hist_avg with Some h => flt st (fmul h (Fin (9 # 10))) | None => false end
      then "Risco de tightness — níveis abaixo da média histórica"
      else if flt delta_bcf (Fin (-5)) then "Atenção: saída semanal forte (-5 Bcf ou mais)"
      else "Normal"
  end.

(** How floats and dates print: [format(x, spec)] for a float and
    [str(d)] for a date. *)
Record formatter := mkFormatter {
  fmt : string -> pyfloat -> string;
  date_str : Z -> string
}.

(** [format(v, spec)] for a value that may be [None]: [None] has no
    numeric format and raises [TypeError]. *)
Definition fmt_opt (F : formatter) (spec : string) (v : option pyfloat) : result string :=
  match v with Some x => Ok (fmt F spec x) | None => Error TypeError end.

(** [dataset_link or 'local']. *)
Definition link_or_local (link : option string) : string :=
  match link with Some l => if String.eqb l "" then "local" else l | None => "local" end.

(** The dict [latest_stats] returns in format_telegram_inventory.py: the
    shared fields, then [label] and [series_id]. *)
Definition tg_stats := (stats * string * string)%type.

(** [format_petroleum_msg(stats, dataset_link)]. *)
Definition format_petroleum_msg (F : formatter) (st : option tg_stats) (link : option string)
    : result string :=
  match st with
  | None => Ok ("📦 *ENERGY — Petroleum (Crude)*" ++ OilDaily.nl ++ OilDaily.nl ++ "Sem dados disponíveis.")
  | Some (s, label, sid) =>
      let interp := tg_interpret_petroleum (spct s) in
      match fmt_opt F ",.0f" (svalue s) with
      | Error e => Error e
      | Ok vs =>
          Ok ("📦 *ENERGY — Petroleum (Crude) Weekly*" ++ OilDaily.nl ++ OilDaily.nl
              ++ "🔖 *Série:* " ++ label ++ " (" ++ sid ++ ")" ++ OilDaily.nl
              ++ "📅 *Data:* " ++ date_str F (sdate s) ++ OilDaily.nl
              ++ "📈 *Estoque:* " ++ vs ++ " bbl" ++ OilDaily.nl
              ++ "🔁 *Variação WoW:* " ++ fmt F "+,.0f" (sdelta s) ++ " bbl ("
              ++ fmt F "+.2f" (spct s) ++ "%)" ++ OilDaily.nl ++ OilDaily.nl
              ++ "🔍 *Interpretação rápida:* " ++ interp ++ OilDaily.nl ++ OilDaily.nl
              ++ "🔗 Dados: " ++ link_or_local link ++ OilDaily.nl)
      end
  end.

(** [format_products_msg(stats, dataset_link)]. *)
Definition format_products_msg (F : formatter) (st : option tg_stats) (link : option string)
    : result string :=
  match st with
  | None => Ok ("🛢️ *ENERGY — Petroleum (Crude + Products)*" ++ OilDaily.nl ++ OilDaily.nl ++ "Sem dados disponíveis.")
  | Some (s, label, sid) =>
      let interp := tg_interpret_petroleum (spct s) in
      match fmt_opt F ",.0f" (svalue s) with
      | Error e => Error e
      | Ok vs =>
          Ok ("🛢️ *ENERGY — Petroleum (Crude + Products) Weekly*" ++ OilDaily.nl ++ OilDaily.nl
              ++ "🔖 *Série:* " ++ label ++ " (" ++ sid ++ ")" ++ OilDaily.nl
              ++ "📅 *Data:* " ++ date_str F (sdate s) ++ OilDaily.nl
              ++ "📈 *Estoque Total:* " ++ vs ++ " bbl" ++ OilDaily.nl
              ++ "🔁 *Variação WoW:* " ++ fmt F "+,.0f" (sdelta s) ++ " bbl ("
              ++ fmt F "+.2f" (spct s) ++ "%)" ++ OilDaily.nl ++ OilDaily.nl
              ++ "🔍 *Interpretação rápida:* " ++ interp ++ OilDaily.nl ++ OilDaily.nl
              ++ "🔗 Dados: " ++ link_or_local link ++ OilDaily.nl)
      end
  end.

(** [format_gas_msg(stats, dataset_link, hist_avg)]. *)
Definition format_gas_msg (F : formatter) (st : option tg_stats) (link : option string)
    (hist_avg : option pyfloat) : result string :=
  match st with
  | None => Ok ("⛽ *ENERGY — Gas Storage Weekly*" ++ OilDaily.nl ++ OilDaily.nl ++ "Sem dados disponíveis.")
  | Some (s, label, sid) =>
      let interp := tg_interpret_gas (svalue s) (sdelta s) hist_avg in
      match fmt_opt F ",.1f" (svalue s) with
      | Error e => Error e
      | Ok vs =>
          Ok ("⛽ *ENERGY — Gas Storage Weekly*" ++ OilDaily.nl ++ OilDaily.nl
              ++ "🔖 *Série:* " ++ label ++ " (" ++ sid ++ ")" ++ OilDaily.nl
              ++ "📅 *Data:* " ++ date_str F (sdate s) ++ OilDaily.nl
              ++ "📦 *Storage Total:* " ++ vs ++ " Bcf" ++ OilDaily.nl
              ++ "🔁 *Variação WoW:* " ++ fmt F "+,.1f" (sdelta s) ++ " Bcf ("
              ++ fmt F "+.2f" (spct s) ++ "%)" ++ OilDaily.nl ++ OilDaily.nl
              ++ "🔍 *Interpretação rápida:* " ++ interp ++ OilDaily.nl ++ OilDaily.nl
              ++ "🔗 Dados: " ++ link_or_local link ++ OilDaily.nl)
      end
  end.

End EnergyFormat.

(* ------------------------------------------------------------------ *)
(** ** Concrete runs *)

Example split_default_order :
  py_split LLM.comma LLM.default_order = ["piapi"; "groq"; "openai"; "deepseek"].
Proof. reflexivity. Qed.

Example split_spaces : py_split LLM.comma "piapi, groq" = ["piapi"; " groq"].
Proof. reflexivity. Qed.

Definition no_env : env := fun _ => None.

Definition req0 : LLM.request := LLM.mkRequest "s" "u" (4 # 10) 1800.

(** PIAPI fails, Groq answers. *)
Definition outs_groq : LLM.outcomes := fun p _ =>
  match p with LLM.Piapi => Error (RuntimeError "PIAPI_API_KEY faltando") | _ => Ok "texto" end.

Example generate_groq :
  let '(r, c, calls) := LLM.generate (LLM.init None no_env) outs_groq req0 in
  r = Ok "texto" /\ LLM.active_provider c = Some "groq" /\ calls = ["piapi"; "groq"].
Proof. vm_compute. auto. Qed.

Definition w_empty : world := {| files := ∅; delivered := [] |}.

Example title_counter_fresh :
  (title_counter "data/counters.json" "diario_oil" w_empty).1 = Ok 1%Z.
Proof. reflexivity. Qed.

Example sent_guard_twice :
  let '(r1, w1) := sent_guard "2026-10-19" "s.sent" w_empty in
  r1 = Ok false /\ (sent_guard "2026-10-19" "s.sent" w1).1 = Ok true.
Proof. vm_compute. auto. Qed.

Example coal_metrics_example :
  match Metrics.compute_metrics_coal
          [Metrics.mkObs "2024-01-01" (Metrics.Fin 100); Metrics.mkObs "2024-01-02" (Metrics.Fin (1007 # 10))] with
  | Ok m => Metrics.trend m = "alta"
  | Error _ => False
  end.
Proof. vm_compute. reflexivity. Qed.

Example round2_examples :
  py_round2 (70004 # 1000) = 7000 # 100 /\ py_round2 (125 # 1000) = 12 # 100
  /\ py_round2 (135 # 1000) = 14 # 100.
Proof. vm_compute. auto. Qed.

(* ------------------------------------------------------------------ *)
(** ** The LLM fallback chain *)

Module LLMFacts.
Local Open Scope list_scope.
Import LLM.

Lemma gen_loop_first_success out req names pre p post text le act :
  List.filter is_known names = pre ++ p :: post ->
  Forall (fails out req) pre ->
  call_outcome out req p = Some (Ok text) ->
  gen_loop out req names le act = (Ok text, Some p, pre ++ [p]).
Proof.
  revert pre le act.
  induction names as [|n rest IH]; intros pre le act Hf Hpre Hp; simpl in Hf.
  - destruct pre; discriminate.
  - unfold is_known in Hf. simpl.
    destruct (dispatch n) as [pr|] eqn:Hd.
    + destruct pre as [|q pre'].
      * simpl in Hf. injection Hf as -> _.
        unfold call_outcome in Hp. rewrite Hd in Hp. injection Hp as ->. reflexivity.
      * simpl in Hf. injection Hf as -> Hf.
        inversion Hpre as [|? ? [e He] Hpre']; subst.
        unfold call_outcome in He. rewrite Hd in He. injection He as ->.
        rewrite (IH pre' (Some e) (Some q) Hf Hpre' Hp). reflexivity.
    + eapply IH; eauto.
Qed.

(** The loop's [last_error] after the remaining names all fail. *)
Definition last_error_from (out : outcomes) (req : request) (names : list string)
    (le : option exn) : option exn :=
  match last_provider_error out req names with Some e => Some e | None => le end.

Lemma gen_loop_all_fail out req names le act :
  Forall (fails out req) (List.filter is_known names) ->
  (gen_loop out req names le act).1.1
  = Error (RuntimeError (failure_message (last_error_from out req names le))).
Proof.
  revert le act.
  induction names as [|n rest IH]; intros le act Hall; [reflexivity|].
  simpl. unfold is_known in Hall. simpl in Hall.
  unfold last_error_from, last_provider_error, call_outcome. simpl.
  destruct (dispatch n) as [pr|] eqn:Hd.
  - inversion Hall as [|? ? [e He] Hrest]; subst.
    unfold call_outcome in He. rewrite Hd in He. injection He as He. rewrite He.
    destruct (gen_loop out req rest (Some e) (Some n)) as [[r a] calls] eqn:Hg.
    simpl. specialize (IH (Some e) (Some n) Hrest). rewrite Hg in IH. simpl in IH.
    rewrite IH. unfold last_error_from, last_provider_error, call_outcome.
    simpl.
    destruct (rev _); reflexivity.
  - rewrite (IH le (Some n) Hall). reflexivity.
Qed.

Lemma gen_loop_success_exists out req names le act :
  ~ Forall (fails out req) (List.filter is_known names) ->
  is_error (gen_loop out req names le act).1.1 = false.
Proof.
  revert le act.
  induction names as [|n rest IH]; intros le act Hn; simpl in *.
  - exfalso. apply Hn. constructor.
  - unfold is_known in Hn. destruct (dispatch n) as [pr|] eqn:Hd; [|eauto].
    destruct (out pr req) as [text|e] eqn:Ho; [reflexivity|].
    destruct (gen_loop out req rest (Some e) (Some n)) as [[r a] calls] eqn:Hg.
    simpl. replace r with (gen_loop out req rest (Some e) (Some n)).1.1 by (rewrite Hg; done).
    apply IH. intros Hall. apply Hn. constructor; [|done].
    exists e. unfold call_outcome. by rewrite Hd, Ho.
Qed.

Lemma fails_dec out req n : {fails out req n} + {~ fails out req n}.
Proof.
  unfold fails. destruct (call_outcome out req n) as [[t|e]|].
  - right. intros [e H]. discriminate.
  - left. eauto.
  - right. intros [e H]. discriminate.
Defined.

End LLMFacts.

(* ------------------------------------------------------------------ *)
(** ** Claims on providers/llm_client.py *)

(** C1: [generate] calls the providers of [self.order] in that order and
    returns the text of the first call that does not raise; nothing after
    it is called, and [active_provider] is then the provider that served
    the answer. Names matching none of the four providers are skipped
    without a call (the filter is the identity on orders such as the
    default "piapi,groq,openai,deepseek"). *)
Theorem generate_first_success (c : LLM.client) (out : LLM.outcomes) (req : LLM.request)
    (pre : list string) (p : string) (post : list string) (text : string) :
  List.filter LLM.is_known (LLM.order c) = (pre ++ p :: post)%list ->
  Forall (LLM.fails out req) pre ->
  LLM.call_outcome out req p = Some (Ok text) ->
  LLM.generate c out req
  = (Ok text,
     {| LLM.order := LLM.order c; LLM.default_provider := LLM.default_provider c;
        LLM.active_provider := Some p |},
     (pre ++ [p])%list).
Proof.
  intros Hf Hpre Hp. unfold LLM.generate.
  by rewrite (LLMFacts.gen_loop_first_success out req (LLM.order c) pre p post text None
                (LLM.active_provider c) Hf Hpre Hp).
Qed.

Lemma generate_first_success_witness :
  LLM.generate (LLM.init None no_env) outs_groq req0
  = (Ok "texto",
     {| LLM.order := LLM.order (LLM.init None no_env);
        LLM.default_provider := LLM.default_provider (LLM.init None no_env);
        LLM.active_provider := Some "groq" |},
     ["piapi"; "groq"]).
Proof.
  apply (generate_first_success (LLM.init None no_env) outs_groq req0
           ["piapi"] "groq" ["openai"; "deepseek"] "texto").
  - reflexivity.
  - constructor; [|constructor]. eexists. reflexivity.
  - reflexivity.
Defined.

(** C2: [generate] raises exactly when every provider call in the order
    raises, and then raises [RuntimeError] whose message ends with [str()]
    of the last provider error; if some call succeeds it returns. *)
Theorem generate_raises_iff_all_fail (c : LLM.client) (out : LLM.outcomes) (req : LLM.request) :
  (is_error (LLM.generate c out req).1.1 = true
   <-> Forall (LLM.fails out req) (List.filter LLM.is_known (LLM.order c)))
  /\ (Forall (LLM.fails out req) (List.filter LLM.is_known (LLM.order c)) ->
      (LLM.generate c out req).1.1
      = Error (RuntimeError (LLM.failure_message
                               (LLM.last_provider_error out req (LLM.order c))))).
Proof.
  unfold LLM.generate.
  pose proof (LLMFacts.gen_loop_all_fail out req (LLM.order c) None (LLM.active_provider c)) as Hall.
  pose proof (LLMFacts.gen_loop_success_exists out req (LLM.order c) None (LLM.active_provider c)) as Hex.
  destruct (LLM.gen_loop out req (LLM.order c) None (LLM.active_provider c)) as [[r a] calls].
  simpl in *. split.
  - split.
    + intros Hr.
      destruct (Stdlib.Lists.List.Forall_dec _ (LLMFacts.fails_dec out req)
                  (List.filter LLM.is_known (LLM.order c))) as [H|H]; [done|].
      rewrite (Hex H) in Hr. discriminate.
    + intros H. by rewrite (Hall H).
  - intros H. rewrite (Hall H). unfold LLMFacts.last_error_from.
    by destruct (LLM.last_provider_error out req (LLM.order c)).
Qed.

(** C8: the [provider] argument of [__init__] and [LLM_PROVIDER] play no
    part in [generate]: two clients built with any provider arguments and
    environments that agree on [LLM_FALLBACK_ORDER] call the same
    providers in the same order and give the same result and the same
    [active_provider]. *)
Theorem provider_argument_irrelevant (p1 p2 : option string) (E1 E2 : env)
    (out : LLM.outcomes) (req : LLM.request) :
  E1 "LLM_FALLBACK_ORDER" = E2 "LLM_FALLBACK_ORDER" ->
  let '(r1, c1, calls1) := LLM.generate (LLM.init p1 E1) out req in
  let '(r2, c2, calls2) := LLM.generate (LLM.init p2 E2) out req in
  r1 = r2 /\ calls1 = calls2 /\ LLM.active_provider c1 = LLM.active_provider c2.
Proof.
  intros HE. unfold LLM.generate, LLM.init, getenv. simpl. rewrite HE.
  destruct (LLM.gen_loop _ _ _ _ _) as [[r a] calls]. auto.
Qed.

Definition env_deepseek : env := fun k =>
  if String.eqb k "LLM_PROVIDER" then Some "deepseek" else None.

Lemma provider_argument_irrelevant_witness :
  no_env "LLM_FALLBACK_ORDER" = env_deepseek "LLM_FALLBACK_ORDER" /\
  let '(r1, c1, calls1) := LLM.generate (LLM.init (Some "openai") no_env) outs_groq req0 in
  let '(r2, c2, calls2) := LLM.generate (LLM.init None env_deepseek) outs_groq req0 in
  r1 = r2 /\ calls1 = calls2 /\ LLM.active_provider c1 = LLM.active_provider c2.
Proof.
  split; [reflexivity|].
  apply (provider_argument_irrelevant (Some "openai") None no_env env_deepseek outs_groq req0).
  reflexivity.
Defined.

(* ------------------------------------------------------------------ *)
(** ** The sentinel and the counter *)

Module FileFacts.

(** The file at [path] decodes to a dict whose [last_sent] is [today]. *)
Definition sentinel_says (today : string) (f : option file) : Prop :=
  exists d, f = Some (FJson (PDict d)) /\ dict_get "last_sent" d = Some (PStr today).

Lemma sentinel_is_today_true today v w :
  sentinel_is_today today v w = (Ok true, w) <-> sentinel_says today (Some (FJson v)).
Proof.
  unfold sentinel_is_today, sentinel_says. split.
  - destruct v as [| | | | | |d]; try discriminate. intros H.
    exists d. split; [done|].
    destruct (dict_get "last_sent" d) as [[| | | |s| |]|]; try discriminate.
    injection H as H. apply String.eqb_eq in H. by subst.
  - intros (d & Hd & Hg). injection Hd as ->. rewrite Hg. by rewrite String.eqb_refl.
Qed.


Lemma dict_get_set_ne k k' v d : k' <> k -> dict_get k' (dict_set k v d) = dict_get k' d.
Proof.
  intros Hne. induction d as [|[k0 v0] d IH]; simpl.
  - destruct (String.eqb k' k) eqn:E; [apply String.eqb_eq in E; congruence|done].
  - destruct (String.eqb k k0) eqn:E; simpl.
    + apply String.eqb_eq in E. subst k0.
      destruct (String.eqb k' k) eqn:E'; [apply String.eqb_eq in E'; congruence|done].
    + by rewrite IH.
Qed.

(** What [title_counter] starts from: the dict in the file, or [{}] when
    the file is missing or does not decode; [None] when it decodes to
    something other than a dict. *)
Definition loaded_dict (f : option file) : option (list (string * pyval)) :=
  match f with
  | None | Some FRaw => Some []
  | Some (FJson (PDict d)) => Some d
  | Some (FJson _) => None
  end.


Definition sentinel_check (today : string) (f : option file) : bool :=
  match f with
  | Some (FJson (PDict d)) =>
      match dict_get "last_sent" d with Some (PStr s) => String.eqb s today | _ => false end
  | _ => false
  end.

Definition write_sentinel (today path : string) (w : world) : world :=
  {| files := <[path := FJson (PDict [("last_sent", PStr today)])]> (files w);
     delivered := delivered w |}.

Lemma sent_guard_eq today path w :
  sent_guard today path w
  = if sentinel_check today (files w !! path) then (Ok true, w)
    else (Ok false, write_sentinel today path w).
Proof.
  unfold sent_guard, ensure_dir_for_file, path_exists, bind, ret, try_except,
    json_load, json_dump, sentinel_is_today, raise, write_sentinel.
  destruct (files w !! path) as [[v|]|] eqn:Hf; simpl; rewrite ?Hf; simpl; try done.
  destruct v as [| | | | | |d]; simpl; try done.
  destruct (dict_get "last_sent" d) as [[| | | |s| |]|]; simpl; try done.
  destruct (String.eqb s today); done.
Qed.

Lemma sentinel_check_spec today f :
  sentinel_check today f = true <-> sentinel_says today f.
Proof.
  unfold sentinel_check, sentinel_says. split.
  - destruct f as [[[| | | | | |d]|]|]; try discriminate.
    destruct (dict_get "last_sent" d) as [[| | | |s| |]|] eqn:Hg; try discriminate.
    intros H. apply String.eqb_eq in H. subst. eauto.
  - intros (d & -> & Hg). rewrite Hg. apply String.eqb_refl.
Qed.

End FileFacts.

(** C4: [sent_guard(path)] returns [True] exactly when the file at [path]
    exists and decodes to a dict whose [last_sent] is today's UTC-3 date
    tag, and then changes nothing; otherwise it writes
    [{"last_sent": today}] to [path] and returns [False]. Hence a second
    call with the same date tag right after a first one returns [True]. *)
Theorem sent_guard_spec (today path : string) (w : world) :
  let '(r, w') := sent_guard today path w in
  (r = Ok true <-> FileFacts.sentinel_says today (files w !! path))
  /\ (r = Ok true -> w' = w)
  /\ (r <> Ok true ->
      r = Ok false
      /\ w' = {| files := <[path := FJson (PDict [("last_sent", PStr today)])]> (files w);
                 delivered := delivered w |})
  /\ (sent_guard today path w').1 = Ok true.
Proof.
  rewrite FileFacts.sent_guard_eq.
  destruct (FileFacts.sentinel_check today (files w !! path)) eqn:Hc.
  - apply FileFacts.sentinel_check_spec in Hc.
    split; [tauto|]. split; [done|]. split; [tauto|].
    rewrite FileFacts.sent_guard_eq.
    apply FileFacts.sentinel_check_spec in Hc. by rewrite Hc.
  - split.
    + split; [discriminate|]. intros H. apply FileFacts.sentinel_check_spec in H. congruence.
    + split; [discriminate|]. split; [done|].
      rewrite FileFacts.sent_guard_eq. unfold FileFacts.write_sentinel. simpl.
      rewrite lookup_insert_eq. simpl. by rewrite String.eqb_refl.
Qed.






Module MainFacts.

(** [m] keeps [P] of the world whatever it returns. *)
Definition preserves {A} (P : world -> Prop) (m : M A) : Prop :=
  forall w, P w -> P (m w).2.

Lemma preserves_bind {A B} P (m : M A) (f : A -> M B) :
  preserves P m -> (forall a, preserves P (f a)) -> preserves P (bind m f).
Proof.
  intros Hm Hf w Hw. unfold bind.
  specialize (Hm w Hw). destruct (m w) as [[a|e] w'] eqn:E; simpl in *; [by apply Hf|done].
Qed.

Lemma establishes_bind {A B} P (m : M A) (f : A -> M B) w :
  P (m w).2 -> (forall a, preserves P (f a)) -> P (bind m f w).2.
Proof.
  intros Hm Hf. unfold bind. destruct (m w) as [[a|e] w'] eqn:E; simpl in *; [by apply Hf|done].
Qed.

Lemma preserves_ret {A} P (a : A) : preserves P (ret a).
Proof. intros w Hw. done. Qed.

Lemma preserves_of_result {A} P (r : result A) : preserves P (of_result r).
Proof. intros w Hw. by destruct r. Qed.

Lemma send_to_telegram_files E ok t pv w :
  files (send_to_telegram E ok t pv w).2 = files w.
Proof.
  unfold send_to_telegram, deliver, ret.
  repeat match goal with |- context [if ?b then _ else _] => destruct b end; done.
Qed.

Lemma preserves_send_to_telegram (Pf : gmap string file -> Prop) E ok t pv :
  preserves (fun w => Pf (files w)) (send_to_telegram E ok t pv).
Proof. intros w Hw. by rewrite send_to_telegram_files. Qed.

(** [title_counter] either leaves the world as it is or rewrites the file
    at [cp] with the loaded dict updated at [key]. *)
Lemma title_counter_effect cp key w :
  (title_counter cp key w).2 = w
  \/ exists d n, FileFacts.loaded_dict (files w !! cp) = Some d
     /\ (title_counter cp key w).2
        = {| files := <[cp := FJson (PDict (dict_set key (PInt n) d))]> (files w);
             delivered := delivered w |}.
Proof.
  unfold title_counter, ensure_dir_for_file, path_exists, bind, ret, try_except,
    json_load, json_dump, of_result, raise, FileFacts.loaded_dict.
  destruct (files w !! cp) as [[v|]|] eqn:Hf; simpl; rewrite ?Hf; simpl.
  - destruct v as [| | | | | |d]; simpl; try (left; done).
    destruct (py_int (get_or_zero key d)); simpl; [|left; done].
    right. eauto.
  - right. eauto.
  - right. eauto.
Qed.

Lemma preserves_title_counter_other (Q : option file -> Prop) sp cp key :
  cp <> sp -> preserves (fun w => Q (files w !! sp)) (title_counter cp key).
Proof.
  intros Hne w Hw. destruct (title_counter_effect cp key w) as [-> | (d & n & _ & ->)]; [done|].
  simpl. by rewrite lookup_insert_ne.
Qed.

Lemma preserves_title_counter_sentinel today sp cp key :
  key <> "last_sent" ->
  preserves (fun w => FileFacts.sentinel_says today (files w !! sp)) (title_counter cp key).
Proof.
  intros Hk w Hw. destruct (title_counter_effect cp key w) as [-> | (d & n & Hl & ->)]; [done|].
  simpl. destruct (decide (cp = sp)) as [<-|Hne].
  - rewrite lookup_insert_eq.
    destruct Hw as (d0 & Hd0 & Hg). rewrite Hd0 in Hl. simpl in Hl. injection Hl as ->.
    exists (dict_set key (PInt n) d). split; [done|].
    rewrite FileFacts.dict_get_set_ne; [done|]. intros Heq. apply Hk. done.
  - by rewrite lookup_insert_ne.
Qed.

(** Every step of [main] after the guard keeps any property of the
    sentinel file that [title_counter] keeps. *)
Lemma preserves_main_tail I a (Q : option file -> Prop) sp :
  preserves (fun w => Q (files w !! sp)) (title_counter (OilDaily.counter_path a) "diario_oil") ->
  preserves (fun w => Q (files w !! sp))
    (let* numero := title_counter (OilDaily.counter_path a) "diario_oil" in
     let titulo := "📊 Dados de Mercado — Petróleo (WTI & Brent) — " ++ OilDaily.today_title I
                   ++ " — Diário — Nº " ++ pretty numero in
     let* contexto := of_result (OilDaily.build_context_block I) in
     let* out := of_result (OilDaily.gerar_analise_oil I contexto (OilDaily.provider a)) in
     let corpo := py_strip out.1 in
     let provider_usado := match out.2 with Some p => p | None => "None" end in
     let texto_final := "<b>" ++ OilDaily.html_escape titulo ++ "</b>" ++ OilDaily.nl ++ OilDaily.nl
                        ++ corpo ++ OilDaily.nl ++ OilDaily.nl
                        ++ "<i>Provedor LLM: " ++ OilDaily.html_escape provider_usado ++ " • "
                        ++ OilDaily.elapsed I ++ "s</i>" in
     if OilDaily.send_telegram a
     then send_to_telegram (OilDaily.E I) (OilDaily.tg_post_ok I) texto_final (OilDaily.preview a)
     else ret tt).
Proof.
  intros Htc. apply preserves_bind; [done|]. intros numero.
  apply preserves_bind; [apply preserves_of_result|]. intros contexto.
  apply preserves_bind; [apply preserves_of_result|]. intros out.
  destruct (OilDaily.send_telegram a).
  - apply (preserves_send_to_telegram (fun fs => Q (fs !! sp))).
  - apply preserves_ret.
Qed.

End MainFacts.

(** Every provider call raises. *)
Definition outs_all_fail : LLM.outcomes := fun _ _ => Error (HTTPError 503).

Definition inputs_llm_down : OilDaily.run_inputs :=
  {| OilDaily.E := no_env; OilDaily.today_tag := "2026-10-19";
     OilDaily.today_title := "19 de outubro de 2026"; OilDaily.elapsed := "0.4";
     OilDaily.float_repr := fun _ => "70.0";
     OilDaily.alpha_get := fun _ => Error ConnectionError;
     OilDaily.rnd := 1 # 2; OilDaily.unif := 1;
     OilDaily.llm := outs_all_fail; OilDaily.tg_post_ok := true |}.

Definition args_send : OilDaily.args :=
  {| OilDaily.send_telegram := true; OilDaily.force := false; OilDaily.preview := false;
     OilDaily.counter_path := "data/counters.json"; OilDaily.sent_path := None;
     OilDaily.provider := None |}.

(** C3 (counterexample): a run with [--send-telegram] whose LLM providers
    all fail raises and delivers nothing, yet the sentinel, absent before,
    now records today's date. *)
Lemma oil_main_marks_sentinel_without_delivery :
  let '(r, w') := OilDaily.main inputs_llm_down args_send w_empty in
  is_error r = true
  /\ delivered w' = []
  /\ files w_empty !! "data/sentinels/oil_daily.sent" = None
  /\ files w' !! "data/sentinels/oil_daily.sent"
     = Some (FJson (PDict [("last_sent", PStr "2026-10-19")])).
Proof. vm_compute. auto. Qed.

(** C3 (amended): [oil_daily.main] calls [sent_guard] before building the
    report, so in every run without [--force] the sentinel afterwards
    records today's date, whether the report was then generated and
    delivered, generation raised, or [--send-telegram] was not given. A
    [--force] run skips [sent_guard] and leaves the sentinel file as it
    was (the counter file being another path). *)
Theorem oil_main_sentinel_written_at_guard (I : OilDaily.run_inputs) (a : OilDaily.args)
    (w : world) :
  (OilDaily.force a = false ->
   FileFacts.sentinel_says (OilDaily.today_tag I)
     (files (OilDaily.main I a w).2 !! OilDaily.sent_path_of a))
  /\ (OilDaily.force a = true -> OilDaily.counter_path a <> OilDaily.sent_path_of a ->
      files (OilDaily.main I a w).2 !! OilDaily.sent_path_of a
      = files w !! OilDaily.sent_path_of a).
Proof.
  split.
  - intros Hf. unfold OilDaily.main. rewrite Hf.
    apply MainFacts.establishes_bind.
    + rewrite FileFacts.sent_guard_eq.
      destruct (FileFacts.sentinel_check _ _) eqn:Hc; simpl.
      * by apply FileFacts.sentinel_check_spec.
      * rewrite lookup_insert_eq. eexists. split; [done|]. reflexivity.
    + intros already. destruct already; [apply MainFacts.preserves_ret|].
      apply MainFacts.preserves_main_tail.
      apply MainFacts.preserves_title_counter_sentinel. discriminate.
  - intros Hf Hne.
    pose proof (MainFacts.preserves_main_tail I a
                  (fun f => f = files w !! OilDaily.sent_path_of a) (OilDaily.sent_path_of a)
                  (MainFacts.preserves_title_counter_other _ _ _ _ Hne) w eq_refl) as H.
    unfold OilDaily.main. rewrite Hf. exact H.
Qed.

Module MetricsFacts.
Import Metrics.
Local Open Scope list_scope.

Definition date_le (x y : row) : Prop := (rdate x <= rdate y)%Z.
Definition date_lt (x y : row) : Prop := (rdate x < rdate y)%Z.

Lemma insert_row_perm r rs : Permutation (r :: rs) (insert_row r rs).
Proof.
  induction rs as [|r' rest IH]; simpl; [done|].
  destruct (Z.leb (rdate r) (rdate r')); [done|].
  etrans; [apply perm_swap|]. by constructor.
Qed.

Lemma insert_row_sorted r rs :
  StronglySorted date_le rs -> StronglySorted date_le (insert_row r rs).
Proof.
  induction rs as [|r' rest IH]; intros Hs; simpl.
  - repeat constructor.
  - inversion Hs as [|? ? Hrest Hall]; subst.
    destruct (Z.leb (rdate r) (rdate r')) eqn:E.
    + apply Z.leb_le in E. constructor; [done|]. constructor; [done|].
      rewrite Stdlib.Lists.List.Forall_forall in Hall |- *. intros x Hx. specialize (Hall x Hx).
      unfold date_le in *. lia.
    + apply Z.leb_gt in E. constructor; [by apply IH|].
      rewrite Stdlib.Lists.List.Forall_forall in Hall |- *. intros x Hx.
      apply (Permutation_in _ (Permutation_sym (insert_row_perm r rest))) in Hx.
      destruct Hx as [<-|Hx]; [unfold date_le; lia|by apply Hall].
Qed.

Lemma sort_rows_perm rs : Permutation rs (sort_rows rs).
Proof.
  induction rs as [|r rest IH]; simpl; [done|].
  etrans; [by apply perm_skip|]. apply insert_row_perm.
Qed.

Lemma sort_rows_sorted rs : StronglySorted date_le (sort_rows rs).
Proof. induction rs; simpl; [constructor|by apply insert_row_sorted]. Qed.

(** Two orderings of the same rows, one by non-decreasing and one by
    strictly increasing date, coincide. *)
Lemma sorted_unique s1 s2 :
  StronglySorted date_le s1 -> StronglySorted date_lt s2 -> Permutation s1 s2 -> s1 = s2.
Proof.
  revert s2. induction s1 as [|a t1 IH]; intros s2 H1 H2 Hp.
  - symmetry. by apply Permutation_nil.
  - destruct s2 as [|b t2]; [by apply Permutation_sym, Permutation_nil_cons in Hp|].
    inversion H1 as [|? ? H1' Ha]; subst. inversion H2 as [|? ? H2' Hb]; subst.
    assert (a = b) as <-.
    { pose proof (Permutation_in a Hp (or_introl eq_refl)) as Ha2.
      pose proof (Permutation_in b (Permutation_sym Hp) (or_introl eq_refl)) as Hb1.
      destruct Ha2 as [->|Ha2]; [done|]. destruct Hb1 as [->|Hb1]; [done|].
      rewrite Stdlib.Lists.List.Forall_forall in Ha, Hb. specialize (Ha b Hb1). specialize (Hb a Ha2).
      unfold date_le, date_lt in *. lia. }
    f_equal. apply IH; [done|done|]. by apply Permutation_cons_inv in Hp.
Qed.

Lemma sort_rows_of_sorted rows s :
  Permutation rows s -> StronglySorted date_lt s -> sort_rows rows = s.
Proof.
  intros Hp Hs. apply sorted_unique; [apply sort_rows_sorted|done|].
  etrans; [apply Permutation_sym, sort_rows_perm|done].
Qed.

Lemma nth_last_two {A} (pre : list A) p l :
  nth_last 0 (pre ++ [p; l]) = Ok l /\ nth_last 1 (pre ++ [p; l]) = Ok p.
Proof. unfold nth_last. rewrite rev_app_distr. simpl. done. Qed.

Lemma length_two {A} (pre : list A) p l : (2 <=? length (pre ++ [p; l]))%nat = true.
Proof. apply Nat.leb_le. rewrite length_app. simpl. lia. Qed.

(** The guarded percentage never raises. *)
Lemma pct_of_ok d p : exists r, pct_of d p = Ok r.
Proof.
  unfold pct_of, fne0, fdiv. destruct p as [q|]; simpl.
  - destruct (Qeq_bool q 0); simpl; [eauto|]. destruct d; eauto.
  - eauto.
Qed.

Lemma pct_of_fin dv pv :
  pct_of (Fin dv) (Fin pv) = Ok (if Qeq_bool pv 0 then Fin 0 else Fin (dv / pv * 100)).
Proof. unfold pct_of, fne0, fdiv. by destruct (Qeq_bool pv 0). Qed.

(** The label chain of [compute_metrics]. *)
Definition label (th : Q) (p : pyfloat) : string :=
  if fgt p (Fin th) then "alta" else if flt p (Fin (- th)) then "queda" else "estabilidade".

Lemma compute_metrics_trend_label th os m :
  compute_metrics th os = Ok m -> trend m = label th (pct_change m).
Proof.
  unfold compute_metrics.
  destruct (nth_last 0 os) as [last|e]; [|discriminate].
  destruct (2 <=? length os)%nat.
  - destruct (nth_last 1 os) as [prev|e]; [|discriminate].
    destruct (pct_of _ _) as [p|e]; [|discriminate].
    intros H. injection H as <-. reflexivity.
  - intros H. injection H as <-. reflexivity.
Qed.

Lemma alta_queda_exclusive th p :
  (0 <= th)%Q -> fgt p (Fin th) = true -> flt p (Fin (- th)) = false.
Proof.
  intros Hth. unfold flt, fgt. destruct p as [q|]; [|done].
  intros H. apply negb_true_iff in H. apply negb_false_iff.
  apply Qle_bool_iff. destruct (Qle_bool q th) eqn:E; [discriminate|].
  assert (~ q <= th)%Q as Hn by (intros Hq; apply Qle_bool_iff in Hq; congruence).
  apply Qnot_le_lt in Hn. lra.
Qed.

Lemma nth_last_cases {A} n (xs : list A) :
  nth_last n xs = Error IndexError \/ exists x, nth_last n xs = Ok x.
Proof. unfold nth_last. destruct (nth_error (rev xs) n); eauto. Qed.

Lemma nth_last_ok {A} n (xs : list A) : (n < length xs)%nat -> exists x, nth_last n xs = Ok x.
Proof.
  unfold nth_last. intros H. destruct (nth_error (rev xs) n) eqn:E; [eauto|].
  apply nth_error_None in E. rewrite length_rev in E. lia.
Qed.

Lemma compute_metrics_ok th os : os <> [] -> exists m, compute_metrics th os = Ok m.
Proof.
  intros Hne. unfold compute_metrics.
  destruct (nth_last_ok 0 os) as [last Hl]; [destruct os; [done|simpl; lia]|]. rewrite Hl.
  destruct (2 <=? length os)%nat eqn:E; [|eauto].
  apply Nat.leb_le in E. destruct (nth_last_ok 1 os) as [prev Hp]; [lia|]. rewrite Hp.
  destruct (pct_of_ok (fsub (value last) (value prev)) (value prev)) as [r Hr]. rewrite Hr. eauto.
Qed.

Ltac settle_nth :=
  match goal with
  | |- context [nth_last ?n ?xs] =>
      let x := fresh "x" in let H := fresh "H" in
      destruct (nth_last_cases n xs) as [H | [x H]]; rewrite H
  end.

Ltac settle_pct :=
  match goal with
  | |- context [pct_of ?d ?p] =>
      let r := fresh "r" in let H := fresh "H" in
      destruct (pct_of_ok d p) as [r H]; rewrite H
  end.

(** Only [nth_last] can fail in a calculator, and only with [IndexError]. *)
Ltac no_zero_division :=
  repeat first [ settle_nth | settle_pct
               | match goal with |- context [if ?b then _ else _] => destruct b end
               | progress simpl ];
  discriminate.

End MetricsFacts.

(* ------------------------------------------------------------------ *)
(** ** Claims on the metrics calculators *)

Definition obs_coal : list Metrics.obs :=
  [Metrics.mkObs "2024-01-01" (Metrics.Fin 100); Metrics.mkObs "2024-01-02" (Metrics.Fin (1007 # 10))].

(** C5 (counterexample): coal_daily.py's [compute_metrics] labels a 0.7%
    rise "alta", although 0.7 does not exceed 1.0. *)
Lemma coal_trend_alta_below_one :
  match Metrics.compute_metrics_coal obs_coal with
  | Ok m => Metrics.trend m = "alta"
            /\ (exists q, Metrics.pct_change m = Metrics.Fin q /\ q == 7 # 10)
            /\ Metrics.fgt (Metrics.pct_change m) (Metrics.Fin 1) = false
  | Error _ => False
  end.
Proof.
  vm_compute. split; [reflexivity|]. split; [|reflexivity].
  eexists. split; [reflexivity|]. reflexivity.
Qed.

(** C5 (amended): each [compute_metrics] labels with its own symmetric
    threshold [th] (1.0 in jkm_lng_daily.py, 0.75 in rbob_daily.py, 0.5 in
    coal_daily.py): for a non-empty observation list it returns, with
    "alta" exactly when the percent change exceeds [th], "queda" exactly
    when it is below [-th], "estabilidade" otherwise (also for a single
    observation, whose percent change is 0.0); an empty list raises
    [IndexError]. *)
Theorem compute_metrics_trend_threshold (th : Q) (os : list Metrics.obs) :
  (0 <= th)%Q ->
  (os = [] -> Metrics.compute_metrics th os = Error IndexError)
  /\ (os <> [] -> exists m, Metrics.compute_metrics th os = Ok m)
  /\ (forall m, Metrics.compute_metrics th os = Ok m ->
       (Metrics.trend m = "alta"
        <-> Metrics.fgt (Metrics.pct_change m) (Metrics.Fin th) = true)
       /\ (Metrics.trend m = "queda"
           <-> Metrics.flt (Metrics.pct_change m) (Metrics.Fin (- th)) = true)
       /\ (Metrics.trend m = "estabilidade"
           <-> Metrics.fgt (Metrics.pct_change m) (Metrics.Fin th) = false
               /\ Metrics.flt (Metrics.pct_change m) (Metrics.Fin (- th)) = false))
  /\ (forall o, os = [o] ->
       exists m, Metrics.compute_metrics th os = Ok m
                 /\ Metrics.pct_change m = Metrics.zero /\ Metrics.trend m = "estabilidade").
Proof.
  intros Hth. split; [intros ->; reflexivity|].
  split; [apply MetricsFacts.compute_metrics_ok|]. split.
  - intros m Hm. rewrite (MetricsFacts.compute_metrics_trend_label _ _ _ Hm).
    unfold MetricsFacts.label.
    destruct (Metrics.fgt _ _) eqn:E1.
    + rewrite (MetricsFacts.alta_queda_exclusive th _ Hth E1). intuition congruence.
    + destruct (Metrics.flt _ _); intuition congruence.
  - intros o ->. eexists. split; [reflexivity|]. split; [reflexivity|].
    unfold Metrics.fgt, Metrics.flt, Metrics.zero. simpl.
    assert (Qle_bool 0 th = true) as -> by (by apply Qle_bool_iff).
    assert (Qle_bool (- th) 0 = true) as -> by (apply Qle_bool_iff; lra).
    reflexivity.
Qed.

Lemma compute_metrics_trend_threshold_witness :
  (0 <= 1 # 2)%Q /\ exists m, Metrics.compute_metrics (1 # 2) obs_coal = Ok m.
Proof.
  split; [vm_compute; discriminate|].
  apply (compute_metrics_trend_threshold (1 # 2) obs_coal); [vm_compute; discriminate|discriminate].
Defined.

(** Two FRED observations listed newest first. *)
Definition obs_newest_first : list Metrics.obs :=
  [Metrics.mkObs "2024-02-01" (Metrics.Fin 10); Metrics.mkObs "2024-01-01" (Metrics.Fin 20)].

(** C6 (counterexample): jkm_lng_daily.py's [compute_metrics] does not sort
    by date. On observations listed newest first its delta is
    20 - 10 = 10, whereas by date the latest value is 10 and the prior 20,
    so latest minus prior is -10. *)
Lemma compute_metrics_unsorted_delta :
  match Metrics.compute_metrics_jkm obs_newest_first with
  | Ok m => Metrics.delta m = Metrics.Fin 10
            /\ Metrics.delta m <> Metrics.fsub (Metrics.Fin 10) (Metrics.Fin 20)
  | Error _ => False
  end.
Proof. vm_compute. split; [reflexivity|discriminate]. Qed.

(** C6 (amended): [latest_stats] sorts the rows by date and compares the
    last two: with both values present, delta = latest - prior and
    pct = delta / prior * 100 (0.0 when prior = 0); when the latest or
    the prior value is missing, or there is a single row, both are 0.0.
    [compute_metrics] does not sort: it compares [obs[-1]] with [obs[-2]]
    as listed (delta = last - prev, pct = delta / prev * 100, 0.0 when
    prev = 0), and with a single observation both are 0.0. *)
Theorem wow_metrics_last_two :
  (forall (rows s pre : list Metrics.row) (p l : Metrics.row) (pv lv : Q),
     Permutation rows s -> StronglySorted MetricsFacts.date_lt s -> s = (pre ++ [p; l])%list ->
     Metrics.rvalue p = Metrics.Fin pv -> Metrics.rvalue l = Metrics.Fin lv ->
     Metrics.latest_stats rows
     = Ok (Some (Metrics.mkStats (Metrics.rdate l) (Some (Metrics.Fin lv)) (Metrics.Fin (lv - pv))
                   (if Qeq_bool pv 0 then Metrics.Fin 0 else Metrics.Fin ((lv - pv) / pv * 100)))))
  /\ (forall (rows s pre : list Metrics.row) (p l : Metrics.row),
        Permutation rows s -> StronglySorted MetricsFacts.date_lt s -> s = (pre ++ [p; l])%list ->
        (Metrics.rvalue p = Metrics.NaN \/ Metrics.rvalue l = Metrics.NaN) ->
        exists st, Metrics.latest_stats rows = Ok (Some st)
                   /\ Metrics.sdelta st = Metrics.zero /\ Metrics.spct st = Metrics.zero)
  /\ (forall r : Metrics.row,
        exists st, Metrics.latest_stats [r] = Ok (Some st) /\ Metrics.sdate st = Metrics.rdate r
                   /\ Metrics.sdelta st = Metrics.zero /\ Metrics.spct st = Metrics.zero)
  /\ (forall (th : Q) (pre : list Metrics.obs) (p l : Metrics.obs) (pv lv : Q),
        Metrics.value p = Metrics.Fin pv -> Metrics.value l = Metrics.Fin lv ->
        exists m, Metrics.compute_metrics th (pre ++ [p; l])%list = Ok m
                  /\ Metrics.last_value m = Metrics.Fin lv
                  /\ Metrics.prev_value m = Some (Metrics.Fin pv)
                  /\ Metrics.delta m = Metrics.Fin (lv - pv)
                  /\ Metrics.pct_change m
                     = (if Qeq_bool pv 0 then Metrics.Fin 0 else Metrics.Fin ((lv - pv) / pv * 100)))
  /\ (forall (th : Q) (o : Metrics.obs),
        exists m, Metrics.compute_metrics th [o] = Ok m
                  /\ Metrics.delta m = Metrics.zero /\ Metrics.pct_change m = Metrics.zero).
Proof.
  split; [|split; [|split; [|split]]].
  - intros rows s pre p l pv lv Hp Hs -> Hpv Hlv.
    pose proof (MetricsFacts.sort_rows_of_sorted _ _ Hp Hs) as Hsort.
    destruct rows as [|r0 rows'].
    { apply Permutation_nil in Hp. by destruct pre. }
    unfold Metrics.latest_stats. cbv beta iota zeta. rewrite Hsort.
    destruct (MetricsFacts.nth_last_two pre p l) as [H0 H1].
    rewrite H0, MetricsFacts.length_two, H1, Hpv, Hlv. simpl.
    rewrite MetricsFacts.pct_of_fin. by destruct (Qeq_bool pv 0).
  - intros rows s pre p l Hp Hs -> Hnan.
    pose proof (MetricsFacts.sort_rows_of_sorted _ _ Hp Hs) as Hsort.
    destruct rows as [|r0 rows'].
    { apply Permutation_nil in Hp. by destruct pre. }
    unfold Metrics.latest_stats. cbv beta iota zeta. rewrite Hsort.
    destruct (MetricsFacts.nth_last_two pre p l) as [H0 H1].
    rewrite H0, MetricsFacts.length_two, H1.
    destruct Hnan as [Hn|Hn]; rewrite Hn.
    + destruct (Metrics.rvalue l); simpl; eauto.
    + simpl. eauto.
  - intros r. unfold Metrics.latest_stats. simpl.
    destruct (Metrics.notna (Metrics.rvalue r)); simpl; eauto.
  - intros th pre p l pv lv Hpv Hlv. unfold Metrics.compute_metrics.
    destruct (MetricsFacts.nth_last_two pre p l) as [H0 H1].
    rewrite H0, MetricsFacts.length_two, H1, Hpv, Hlv. simpl.
    rewrite MetricsFacts.pct_of_fin. eexists. split; [reflexivity|]. simpl. auto.
  - intros th o. eexists. split; [reflexivity|]. simpl. auto.
Qed.

Definition row_a : Metrics.row := Metrics.mkRow 19730 (Metrics.Fin 420).
Definition row_b : Metrics.row := Metrics.mkRow 19737 (Metrics.Fin 441).

Lemma wow_metrics_last_two_witness :
  Metrics.latest_stats [row_b; row_a]
  = Ok (Some (Metrics.mkStats 19737 (Some (Metrics.Fin 441)) (Metrics.Fin (441 - 420))
                (if Qeq_bool 420 0 then Metrics.Fin 0 else Metrics.Fin ((441 - 420) / 420 * 100)))).
Proof.
  apply (proj1 wow_metrics_last_two [row_b; row_a] [row_a; row_b] [] row_a row_b 420%Q 441%Q).
  - apply perm_swap.
  - repeat constructor; unfold MetricsFacts.date_lt; simpl; lia.
  - reflexivity.
  - reflexivity.
  - reflexivity.
Defined.

(** C9: no metrics calculator divides by a zero prior: [compute_metrics]
    (any threshold), [latest_stats], [crude_4w_trend] and the FRED
    context price change never raise [ZeroDivisionError], whatever the
    rows (they may raise [IndexError] on too few rows), and a zero prior
    gives a percent change of 0.0. *)
Theorem metrics_never_divide_by_zero :
  (forall (th : Q) (os : list Metrics.obs),
     Metrics.compute_metrics th os <> Error ZeroDivisionError)
  /\ (forall rows, Metrics.latest_stats rows <> Error ZeroDivisionError)
  /\ (forall rows, Metrics.crude_4w_trend rows <> Error ZeroDivisionError)
  /\ (forall rows, Metrics.price_change rows <> Error ZeroDivisionError)
  /\ (forall (d : Metrics.pyfloat) (q : Q), Qeq_bool q 0 = true ->
        Metrics.pct_of d (Metrics.Fin q) = Ok Metrics.zero).
Proof.
  split; [|split; [|split; [|split]]].
  - intros th os. unfold Metrics.compute_metrics. MetricsFacts.no_zero_division.
  - intros [|r rows]; [discriminate|]. unfold Metrics.latest_stats. MetricsFacts.no_zero_division.
  - intros rows. unfold Metrics.crude_4w_trend. MetricsFacts.no_zero_division.
  - intros rows. unfold Metrics.price_change. MetricsFacts.no_zero_division.
  - intros d q Hq. unfold Metrics.pct_of, Metrics.fne0. by rewrite Hq.
Qed.

(* ------------------------------------------------------------------ *)
(** ** Claim on scripts/oil/fetch_prices.py *)

(** An AlphaVantage daily series whose latest close is [close]. *)
Definition alpha_series (close : string) : result http_response :=
  Ok {| status_code := 200;
        json_body := Ok (PDict [("Time Series (Daily)",
                                 PDict [("2024-01-02", PDict [("4. close", PStr close)])])]) |}.

Definition alpha_demo (symbol : string) : result http_response :=
  if String.eqb symbol "WTI" then alpha_series "70.004" else alpha_series "75.006".

(** C10 (counterexample): with AlphaVantage closes 70.004 (WTI) and 75.006
    (Brent), [fetch_prices] returns wti 70.00 and brent 75.01 but spread
    5.00 = round(75.006 - 70.004, 2), not round(75.01 - 70.00, 2) = 5.01. *)
Lemma fetch_prices_spread_from_unrounded :
  match fetch_prices "demo" alpha_demo (1 # 2) 1 with
  | Ok d => exists w b s, d = price_dict w b s
                          /\ w == 7000 # 100 /\ b == 7501 # 100 /\ s == 500 # 100
                          /\ ~ (s == py_round2 (b - w))
  | Error _ => False
  end.
Proof.
  vm_compute. do 3 eexists. split; [reflexivity|].
  split; [reflexivity|]. split; [reflexivity|]. split; [reflexivity|].
  intros H. vm_compute in H. discriminate.
Qed.

(** C10 (amended): [fetch_prices] never raises and always returns the keys
    wti, brent and spread. When [ALPHA_KEY] is set and both AlphaVantage
    lookups succeed, wti and brent are the closes rounded to 2 places and
    spread is round(close_brent - close_wti, 2) of the unrounded closes;
    otherwise (no key, or any exception there) it returns the mock prices,
    whose spread is round(brent - wti, 2) of the returned wti and brent. *)
Theorem fetch_prices_total (key : string) (get : string -> result http_response) (rnd unif : Q) :
  (exists w b s, fetch_prices key get rnd unif = Ok (price_dict w b s))
  /\ (forall cw cb, key <> "" ->
        alpha_vantage_fx key get "WTI" = Ok cw -> alpha_vantage_fx key get "BRENT" = Ok cb ->
        fetch_prices key get rnd unif
        = Ok (price_dict (py_round2 cw) (py_round2 cb) (py_round2 (cb - cw))))
  /\ (key = "" \/ (exists e, alpha_vantage_fx key get "WTI" = Error e)
      \/ (exists e, alpha_vantage_fx key get "BRENT" = Error e) ->
      exists w b, fetch_prices key get rnd unif = Ok (price_dict w b (py_round2 (b - w)))
                  /\ w = py_round2 (70 + rnd * 10) /\ b = py_round2 (w + unif)).
Proof.
  unfold fetch_prices. split; [|split].
  - destruct (negb (String.eqb key "")); [|unfold mock_prices; eauto].
    destruct (alpha_vantage_fx key get "WTI"); [|unfold mock_prices; eauto].
    destruct (alpha_vantage_fx key get "BRENT"); unfold mock_prices; eauto.
  - intros cw cb Hk Hw Hb. apply String.eqb_neq in Hk. rewrite Hk, Hw, Hb. reflexivity.
  - intros Hc. unfold mock_prices.
    destruct Hc as [-> | [[e He] | [e He]]]; [simpl; eauto|rewrite He|].
    { destruct (negb (String.eqb key "")); eauto. }
    destruct (negb (String.eqb key "")); [|eauto].
    destruct (alpha_vantage_fx key get "WTI"); [rewrite He|]; eauto.
Qed.

Lemma fetch_prices_total_witness :
  exists w b, fetch_prices "" alpha_demo (1 # 2) 1 = Ok (price_dict w b (py_round2 (b - w)))
              /\ w = py_round2 (70 + (1 # 2) * 10) /\ b = py_round2 (w + 1).
Proof.
  apply (proj2 (proj2 (fetch_prices_total "" alpha_demo (1 # 2) 1))). left. reflexivity.
Defined.

(* ------------------------------------------------------------------ *)
(** ** Further properties of the fallback chain *)

Module LLMMoreFacts.
Local Open Scope list_scope.
Import LLM.

(** After a failing loop, [active_provider] is the last name iterated. *)
Lemma gen_loop_error_active out req names le act r a calls :
  gen_loop out req names le act = (r, a, calls) -> is_error r = true ->
  a = match last names with Some n => Some n | None => act end.
Proof.
  revert le act r a calls.
  induction names as [|n rest IH]; intros le act r a calls Hg He; simpl in Hg.
  - by injection Hg as <- <- <-.
  - rewrite last_cons.
    destruct (dispatch n) as [p|].
    + destruct (out p req) as [t|e].
      * injection Hg as <- _ _. discriminate.
      * destruct (gen_loop out req rest (Some e) (Some n)) as [[r' a'] c'] eqn:Hg'.
        injection Hg as <- <- _. rewrite (IH _ _ _ _ _ Hg' He). by destruct (last rest).
    + rewrite (IH _ _ _ _ _ Hg He). by destruct (last rest).
Qed.

(** When every provider call raises [g p], the loop calls every known
    name and reports the error of the last one. *)
Lemma gen_loop_all_error out req (g : provider -> exn) names le act :
  (forall p, out p req = Error (g p)) ->
  gen_loop out req names le act
  = (Error (RuntimeError (failure_message
                            (match last (omap dispatch names) with
                             | Some p => Some (g p) | None => le end))),
     match last names with Some n => Some n | None => act end,
     List.filter is_known names).
Proof.
  intros Hg. revert le act.
  induction names as [|n rest IH]; intros le act; [reflexivity|].
  simpl. rewrite last_cons.
  destruct (dispatch n) as [p|] eqn:Hd; simpl;
    replace (is_known n) with (bool_decide (is_Some (dispatch n)))
      by (unfold is_known; by destruct (dispatch n)); rewrite Hd; simpl.
  - rewrite Hg, IH. rewrite last_cons. unfold omap. simpl.
    by destruct (last (list_omap _ _ dispatch rest)), (last rest).
  - rewrite IH. unfold omap. simpl. by destruct (last rest).
Qed.

Lemma split_aux_nonempty sep s cur : split_aux sep s cur <> [].
Proof.
  revert cur. induction s as [|ch rest IH]; intros cur; simpl; [done|].
  destruct (Ascii.eqb ch sep); [done|apply IH].
Qed.

End LLMMoreFacts.

(* ------------------------------------------------------------------ *)
(** ** Further properties of the counter *)

Module CounterFacts.

(** [title_counter] in one step: it raises when the file decodes to
    something that is not a dict or when [int()] of the entry raises,
    and leaves the world as it was then; otherwise it writes the updated
    dict back. *)
Lemma title_counter_eq path key w :
  title_counter path key w
  = match FileFacts.loaded_dict (files w !! path) with
    | None => (Error (AttributeError "get"), w)
    | Some d =>
        match py_int (get_or_zero key d) with
        | Ok n => (Ok (n + 1)%Z,
                   {| files := <[path := FJson (PDict (dict_set key (PInt (n + 1)) d))]> (files w);
                      delivered := delivered w |})
        | Error e => (Error e, w)
        end
    end.
Proof.
  unfold title_counter, ensure_dir_for_file, path_exists, bind, ret, try_except,
    json_load, json_dump, of_result, raise, FileFacts.loaded_dict.
  destruct (files w !! path) as [[v|]|] eqn:Hf; simpl; rewrite ?Hf; simpl; try done.
  destruct v as [| | | | | |d]; simpl; try done.
  by destruct (py_int (get_or_zero key d)).
Qed.


End CounterFacts.

(** X1: when [generate] raises, [active_provider] is left at the last
    entry of [LLM_FALLBACK_ORDER], whether or not that entry names a
    provider. *)
Theorem generate_failure_leaves_last_entry_active (prov : option string) (E : env)
    (out : LLM.outcomes) (req : LLM.request) :
  is_error (LLM.generate (LLM.init prov E) out req).1.1 = true ->
  LLM.active_provider (LLM.generate (LLM.init prov E) out req).1.2
  = last (LLM.order (LLM.init prov E)).
Proof.
  unfold LLM.generate.
  destruct (LLM.gen_loop out req (LLM.order (LLM.init prov E)) None
              (LLM.active_provider (LLM.init prov E))) as [[r a] calls] eqn:Hg.
  simpl. intros He. rewrite (LLMMoreFacts.gen_loop_error_active _ _ _ _ _ _ _ _ Hg He).
  destruct (last _) eqn:Hl; [done|].
  apply last_None in Hl. exfalso. by apply (LLMMoreFacts.split_aux_nonempty LLM.comma
    (getenv E "LLM_FALLBACK_ORDER" LLM.default_order) "").
Qed.

Definition env_order_typo : env := fun k =>
  if String.eqb k "LLM_FALLBACK_ORDER" then Some "groq,openai,backup" else None.

Lemma generate_failure_leaves_last_entry_active_witness :
  is_error (LLM.generate (LLM.init None env_order_typo) outs_all_fail req0).1.1 = true
  /\ LLM.active_provider (LLM.generate (LLM.init None env_order_typo) outs_all_fail req0).1.2
     = Some "backup".
Proof.
  split; [reflexivity|].
  rewrite (generate_failure_leaves_last_entry_active None env_order_typo outs_all_fail req0);
    reflexivity.
Defined.

(** X2: when none of PIAPI_API_KEY, GROQ_API_KEY, OPENAI_API_KEY and
    DEEPSEEK_API_KEY is set to a non-empty value, [generate] sends no
    request: every provider in the order is tried and raises at its key
    check, and [generate] raises [RuntimeError] naming the missing key of
    the last provider in the order ("... Último erro: None" when the order
    names no provider). *)
Theorem generate_without_api_keys (prov : option string) (E : env) (post : LLM.outcomes)
    (req : LLM.request) :
  (forall p, E (LLMProviders.key_name p) = None \/ E (LLMProviders.key_name p) = Some "") ->
  let c := LLM.init prov E in
  let '(r, c', calls) := LLM.generate c (LLMProviders.provider_call E post) req in
  r = Error (RuntimeError (LLM.failure_message
                             (option_map LLMProviders.missing_key
                                (last (omap LLM.dispatch (LLM.order c))))))
  /\ calls = List.filter LLM.is_known (LLM.order c).
Proof.
  intros Hk. simpl. unfold LLM.generate.
  rewrite (LLMMoreFacts.gen_loop_all_error _ _ LLMProviders.missing_key).
  - simpl. split; [|done]. by destruct (last _).
  - intros p. unfold LLMProviders.provider_call.
    destruct (Hk p) as [-> | ->]; reflexivity.
Qed.

Lemma generate_without_api_keys_witness :
  (forall p, no_env (LLMProviders.key_name p) = None \/ no_env (LLMProviders.key_name p) = Some "")
  /\ let c := LLM.init None no_env in
     let '(r, c', calls) := LLM.generate c (LLMProviders.provider_call no_env outs_groq) req0 in
     r = Error (RuntimeError (LLM.failure_message
                                (option_map LLMProviders.missing_key
                                   (last (omap LLM.dispatch (LLM.order c))))))
     /\ calls = List.filter LLM.is_known (LLM.order c).
Proof.
  split; [intros p; left; reflexivity|].
  apply generate_without_api_keys. intros p; left; reflexivity.
Defined.

Definition w_counter_raw : world :=
  {| files := {[ "data/counters.json" := FRaw ]}; delivered := [] |}.


Definition w_sent_today : world :=
  {| files := {[ "data/sentinels/oil_daily.sent"
                 := FJson (PDict [("last_sent", PStr "2026-10-19")]) ]};
     delivered := [] |}.

(* ------------------------------------------------------------------ *)
(** ** What a run of [oil_daily.main] delivers and writes *)

Module RunFacts.
Local Open Scope list_scope.

(** [m] leaves the delivered messages as they are. *)
Definition keeps_delivered {A} (m : M A) : Prop :=
  forall w, delivered (m w).2 = delivered w.

(** [m] appends at most one message, and none unless [b]. *)
Definition appends_at_most_one {A} (b : bool) (m : M A) : Prop :=
  forall w, delivered (m w).2 = delivered w
            \/ (b = true /\ exists chat t, delivered (m w).2 = delivered w ++ [(chat, t)]).

Lemma keeps_appends {A} b (m : M A) : keeps_delivered m -> appends_at_most_one b m.
Proof. intros H w. left. apply H. Qed.

Lemma appends_bind {A B} b (m : M A) (f : A -> M B) :
  keeps_delivered m -> (forall a, appends_at_most_one b (f a)) -> appends_at_most_one b (bind m f).
Proof.
  intros Hm Hf w. unfold bind. specialize (Hm w).
  destruct (m w) as [[a|e] w'] eqn:E; simpl in *.
  - rewrite <- Hm. apply Hf.
  - left. done.
Qed.

Lemma keeps_ret {A} (a : A) : keeps_delivered (ret a).
Proof. intros w. done. Qed.

Lemma keeps_of_result {A} (r : result A) : keeps_delivered (of_result r).
Proof. intros w. by destruct r. Qed.

Lemma keeps_sent_guard today path : keeps_delivered (sent_guard today path).
Proof.
  intros w. rewrite FileFacts.sent_guard_eq. by destruct (FileFacts.sentinel_check _ _).
Qed.

Lemma keeps_title_counter path key : keeps_delivered (title_counter path key).
Proof.
  intros w. rewrite CounterFacts.title_counter_eq.
  destruct (FileFacts.loaded_dict _) as [d|]; [|done]. by destruct (py_int _).
Qed.

Lemma appends_send_to_telegram E ok t pv : appends_at_most_one true (send_to_telegram E ok t pv).
Proof.
  intros w. unfold send_to_telegram. cbv zeta.
  generalize (py_strip (getenv E "TELEGRAM_BOT_TOKEN" "")),
    (py_strip (getenv E "TELEGRAM_CHAT_ID_ENERGY" "")),
    (py_strip (getenv E "TELEGRAM_CHAT_ID_TEST" "")).
  intros bt cm ct.
  destruct (_ || _); [by left|]. destruct ok; [|by left].
  right. split; [done|]. by eexists _, _.
Qed.

Lemma bind_ret {A B} (a : A) (f : A -> M B) w : bind (ret a) f w = f a w.
Proof. reflexivity. Qed.

Lemma bind_eq {A B} (m : M A) (f : A -> M B) w :
  bind m f w = match m w with (Ok a, w') => f a w' | (Error e, w') => (Error e, w') end.
Proof. reflexivity. Qed.



End RunFacts.


(** X3: [send_to_telegram] never raises and writes no file; it appends at
    most one message, carrying [text], to a non-blank chat: the stripped
    TELEGRAM_CHAT_ID_TEST for a preview when that is set, the stripped
    TELEGRAM_CHAT_ID_ENERGY otherwise. Nothing is sent without a bot
    token or when the POST fails. *)
Theorem send_to_telegram_routing (E : env) (post_ok : bool) (text : string) (preview : bool)
    (w : world) :
  let chat_test := py_strip (getenv E "TELEGRAM_CHAT_ID_TEST" "") in
  let chat_main := py_strip (getenv E "TELEGRAM_CHAT_ID_ENERGY" "") in
  let '(r, w') := send_to_telegram E post_ok text preview w in
  r = Ok tt /\ files w' = files w
  /\ (delivered w' = delivered w
      \/ exists chat, delivered w' = (delivered w ++ [(chat, text)])%list /\ chat <> ""
         /\ (preview = true -> chat_test <> "" -> chat = chat_test)
         /\ (preview = false \/ chat_test = "" -> chat = chat_main))
  /\ (py_strip (getenv E "TELEGRAM_BOT_TOKEN" "") = "" \/ post_ok = false ->
      delivered w' = delivered w).
Proof.
  cbv zeta. unfold send_to_telegram. cbv zeta.
  generalize (py_strip (getenv E "TELEGRAM_BOT_TOKEN" "")),
    (py_strip (getenv E "TELEGRAM_CHAT_ID_ENERGY" "")),
    (py_strip (getenv E "TELEGRAM_CHAT_ID_TEST" "")).
  intros bt cm ct.
  destruct (String.eqb bt "") eqn:Hb; simpl;
    [exact (conj eq_refl (conj eq_refl (conj (or_introl eq_refl) (fun _ => eq_refl))))|].
  destruct preview, (String.eqb ct "") eqn:Ht; simpl;
  match goal with |- context [String.eqb ?c ""] => destruct (String.eqb c "") eqn:Hc end; simpl;
  try exact (conj eq_refl (conj eq_refl (conj (or_introl eq_refl) (fun _ => eq_refl))));
  destruct post_ok; simpl;
  try exact (conj eq_refl (conj eq_refl (conj (or_introl eq_refl) (fun _ => eq_refl))));
  (split; [done|]; split; [done|]; split;
   [right; eexists; split; [reflexivity|]; split; [by apply String.eqb_neq|]; split;
    [intros H1 H2; first [reflexivity | discriminate
                          | apply String.eqb_eq in Ht; contradiction]
    |intros [H|H]; first [reflexivity | discriminate
                          | subst; simpl in *; discriminate]]
   |intros [H|H]; [subst; simpl in *; discriminate|discriminate]]).
Qed.

(** X4: a counter file that exists but is not JSON is replaced by
    [{key: 1}]: the count restarts at 1 and whatever the file held is
    lost. *)
Theorem title_counter_unreadable_file_restarts (path key : string) (w : world) :
  files w !! path = Some FRaw ->
  title_counter path key w
  = (Ok 1%Z, {| files := <[path := FJson (PDict [(key, PInt 1)])]> (files w);
                delivered := delivered w |}).
Proof. intros Hf. rewrite CounterFacts.title_counter_eq, Hf. reflexivity. Qed.

Lemma title_counter_unreadable_file_restarts_witness :
  files w_counter_raw !! "data/counters.json" = Some FRaw
  /\ title_counter "data/counters.json" "diario_gas" w_counter_raw
     = (Ok 1%Z, {| files := <["data/counters.json" := FJson (PDict [("diario_gas", PInt 1)])]>
                              (files w_counter_raw);
                   delivered := delivered w_counter_raw |}).
Proof.
  split; [reflexivity|]. apply title_counter_unreadable_file_restarts. reflexivity.
Defined.





(** X7: on a day already recorded in the sentinel file, [main] without
    --force returns at once: nothing is counted, written or sent. *)
Theorem oil_main_already_sent_is_noop (I : OilDaily.run_inputs) (a : OilDaily.args) (w : world) :
  OilDaily.force a = false ->
  FileFacts.sentinel_says (OilDaily.today_tag I) (files w !! OilDaily.sent_path_of a) ->
  OilDaily.main I a w = (Ok tt, w).
Proof.
  intros Hf Hs. unfold OilDaily.main. cbv zeta. rewrite RunFacts.bind_eq, Hf.
  rewrite FileFacts.sent_guard_eq.
  apply FileFacts.sentinel_check_spec in Hs. rewrite Hs. reflexivity.
Qed.

Lemma oil_main_already_sent_is_noop_witness :
  OilDaily.force args_send = false
  /\ FileFacts.sentinel_says (OilDaily.today_tag inputs_llm_down)
       (files w_sent_today !! OilDaily.sent_path_of args_send)
  /\ OilDaily.main inputs_llm_down args_send w_sent_today = (Ok tt, w_sent_today).
Proof.
  assert (Hs : FileFacts.sentinel_says (OilDaily.today_tag inputs_llm_down)
                 (files w_sent_today !! OilDaily.sent_path_of args_send)).
  { apply FileFacts.sentinel_check_spec. vm_compute. reflexivity. }
  split; [reflexivity|]. split; [exact Hs|].
  apply oil_main_already_sent_is_noop; [reflexivity|exact Hs].
Defined.

(** X8: a run of [main] delivers at most one Telegram message, and none
    without --send-telegram, whatever the files, the providers and the
    network do. *)
Theorem oil_main_delivers_at_most_once (I : OilDaily.run_inputs) (a : OilDaily.args) (w : world) :
  delivered (OilDaily.main I a w).2 = delivered w
  \/ (OilDaily.send_telegram a = true
      /\ exists chat t, delivered (OilDaily.main I a w).2 = (delivered w ++ [(chat, t)])%list).
Proof.
  assert (H : RunFacts.appends_at_most_one (OilDaily.send_telegram a) (OilDaily.main I a)).
  { unfold OilDaily.main. cbv zeta.
    apply RunFacts.appends_bind.
    - destruct (OilDaily.force a); [apply RunFacts.keeps_ret|apply RunFacts.keeps_sent_guard].
    - intros already. destruct already; [apply RunFacts.keeps_appends, RunFacts.keeps_ret|].
      apply RunFacts.appends_bind; [apply RunFacts.keeps_title_counter|intros numero].
      apply RunFacts.appends_bind; [apply RunFacts.keeps_of_result|intros contexto].
      apply RunFacts.appends_bind; [apply RunFacts.keeps_of_result|intros out].
      destruct (OilDaily.send_telegram a);
        [apply RunFacts.appends_send_to_telegram|apply RunFacts.keeps_appends, RunFacts.keeps_ret]. }
  apply H.
Qed.



(* ------------------------------------------------------------------ *)
(** ** [html.escape] *)

Module EscapeFacts.

(** The replacement [html_escape] makes for one character. *)
Definition escape_char (c : Ascii.ascii) : string :=
  match Ascii.nat_of_ascii c with
  | 38 => "&amp;" | 60 => "&lt;" | 62 => "&gt;"
  | 34 => "&quot;" | 39 => "&#x27;"
  | _ => String c "" end.

(** The characters that may not appear raw in Telegram HTML: less-than,
    greater-than, double quote and single quote (codes 60, 62, 34, 39). *)
Definition html_special (c : Ascii.ascii) : bool :=
  match Ascii.nat_of_ascii c with 60 | 62 | 34 | 39 => true | _ => false end.

Lemma html_escape_cons c rest :
  OilDaily.html_escape (String c rest) = escape_char c ++ OilDaily.html_escape rest.
Proof. reflexivity. Qed.

Lemma list_ascii_app (s t : string) :
  String.list_ascii_of_string (s ++ t)
  = (String.list_ascii_of_string s ++ String.list_ascii_of_string t)%list.
Proof. induction s as [|c s IH]; simpl; [done|by rewrite IH]. Qed.

Lemma escape_char_safe c :
  forallb (fun x => negb (html_special x)) (String.list_ascii_of_string (escape_char c)) = true.
Proof. destruct c as [[] [] [] [] [] [] [] []]; reflexivity. Qed.

Lemma escape_char_plain c :
  html_special c = false -> Nat.eqb (Ascii.nat_of_ascii c) 38 = false -> escape_char c = String c "".
Proof.
  destruct c as [[] [] [] [] [] [] [] []]; vm_compute; intros H1 H2;
    first [reflexivity | discriminate].
Qed.

End EscapeFacts.

(** X10: the output of [html.escape] as [main] uses it for the title and
    the provider name never contains a raw less-than, greater-than,
    double quote or single quote; and a string with none of these
    characters and no ampersand comes out unchanged. *)
Theorem html_escape_removes_specials (s : string) :
  forallb (fun c => negb (EscapeFacts.html_special c))
    (String.list_ascii_of_string (OilDaily.html_escape s)) = true
  /\ (forallb (fun c => negb (EscapeFacts.html_special c) && negb (Nat.eqb (Ascii.nat_of_ascii c) 38))
        (String.list_ascii_of_string s) = true ->
      OilDaily.html_escape s = s).
Proof.
  induction s as [|c s [IH1 IH2]]; [done|].
  rewrite EscapeFacts.html_escape_cons, EscapeFacts.list_ascii_app, forallb_app,
    EscapeFacts.escape_char_safe, IH1.
  split; [done|].
  cbn [String.list_ascii_of_string forallb]. intros H.
  apply andb_prop in H as [Hc Hs]. apply andb_prop in Hc as [Hc1 Hc2].
  apply negb_true_iff in Hc1, Hc2.
  rewrite EscapeFacts.escape_char_plain by done. rewrite IH2 by done. reflexivity.
Qed.

(* ------------------------------------------------------------------ *)
(** ** [build_context_block] and the oil mock prices *)

Module OilPriceFacts.

(** Whatever source it uses, [fetch_prices] answers a dict with the
    three keys. *)
Lemma fetch_prices_shape key get rnd unif :
  exists w b s, fetch_prices key get rnd unif = Ok (price_dict w b s).
Proof.
  unfold fetch_prices.
  destruct (negb (String.eqb key "")); [|unfold mock_prices; eauto].
  destruct (alpha_vantage_fx key get "WTI"); [|unfold mock_prices; eauto].
  destruct (alpha_vantage_fx key get "BRENT"); unfold mock_prices; eauto.
Qed.

End OilPriceFacts.

(** X11: [build_context_block] never raises: [fetch_prices] always
    answers, and the lookups of "wti", "brent" and "spread" always find
    their key, so the block always starts with the price line. *)
Theorem build_context_block_never_raises (I : OilDaily.run_inputs) :
  exists w b s, OilDaily.build_context_block I
    = Ok ("- Preços: WTI ~ $" ++ OilDaily.float_repr I w ++ " ; Brent ~ $"
          ++ OilDaily.float_repr I b ++ " ; Spread (Brent-WTI) ~ $" ++ OilDaily.float_repr I s
          ++ OilDaily.nl
          ++ "- Inventários (EIA/API/FRED): placeholder — integrar API para valores reais." ++ OilDaily.nl
          ++ "- Produção: EUA / OPEP+ — estimativas e ritmo de recuperação." ++ OilDaily.nl
          ++ "- Curva de Futuros: contango/backwardation (verificar curva de maturidades)." ++ OilDaily.nl
          ++ "- Refinarias / Crack Spreads: status atual e demanda por derivados." ++ OilDaily.nl
          ++ "- Geopolítica: eventos recentes e riscos de oferta.").
Proof.
  unfold OilDaily.build_context_block.
  destruct (OilPriceFacts.fetch_prices_shape
              (py_strip (getenv (OilDaily.E I) "ALPHA_VANTAGE_API_KEY" ""))
              (OilDaily.alpha_get I) (OilDaily.rnd I) (OilDaily.unif I)) as (w & b & s & ->).
  exists w, b, s. reflexivity.
Qed.

(* ------------------------------------------------------------------ *)
(** ** The gas price sources *)

Module GasFacts.
Import GasPrices.

Lemma fetch_from_eia_shape k E g d :
  fetch_from_eia k E g = Ok d -> exists p, d = price_dict p p.
Proof. unfold fetch_from_eia. intros H. repeat case_match; simplify_eq; eauto. Qed.

Lemma fetch_from_alpha_shape k E g d :
  fetch_from_alpha k E g = Ok d -> exists p, d = price_dict p p.
Proof. unfold fetch_from_alpha. intros H. repeat case_match; simplify_eq; eauto. Qed.

Lemma attempt_some k r d : attempt k r = Some d -> k <> "" /\ r = Ok d.
Proof.
  unfold attempt. destruct (String.eqb k "") eqn:Hk; [discriminate|].
  apply String.eqb_neq in Hk. destruct r; intros H; simplify_eq; auto.
Qed.

Lemma attempt_none k r : attempt k r = None <-> k = "" \/ is_error r = true.
Proof.
  unfold attempt. destruct (String.eqb k "") eqn:Hk.
  - apply String.eqb_eq in Hk. subst. tauto.
  - apply String.eqb_neq in Hk. destruct r; simpl; split; intros H; try discriminate; auto.
    destruct H; [contradiction|discriminate].
Qed.

Lemma attempt_nasdaq k : attempt k (fetch_from_nasdaq k) = None.
Proof. unfold attempt, fetch_from_nasdaq. by destruct (String.eqb k ""). Qed.

End GasFacts.

(** X13: the gas [fetch_prices] never raises and always answers the three
    keys with unit "USD/MMBtu"; EIA wins when its key is set and the call
    succeeds, AlphaVantage comes next, the Nasdaq branch never contributes,
    and otherwise the mock is used. A real source reports the same value as
    spot and front month, so the two differ only in a mock answer. *)
Theorem gas_fetch_prices_sources (eia alpha nasdaq : string) (E : env)
    (eg ag : string -> result http_response) (rnd unif : Q) :
  let r := GasPrices.fetch_prices eia alpha nasdaq E eg ag rnd unif in
  (exists spot fm, r = Ok (GasPrices.price_dict spot fm)
                   /\ (spot = fm \/ r = Ok (GasPrices.mock_prices rnd unif)))
  /\ (forall d, eia <> "" -> GasPrices.fetch_from_eia eia E eg = Ok d -> r = Ok d)
  /\ (forall d, eia = "" \/ is_error (GasPrices.fetch_from_eia eia E eg) = true ->
      alpha <> "" -> GasPrices.fetch_from_alpha alpha E ag = Ok d -> r = Ok d)
  /\ (eia = "" \/ is_error (GasPrices.fetch_from_eia eia E eg) = true ->
      alpha = "" \/ is_error (GasPrices.fetch_from_alpha alpha E ag) = true ->
      r = Ok (GasPrices.mock_prices rnd unif)).
Proof.
  cbv zeta. unfold GasPrices.fetch_prices. rewrite GasFacts.attempt_nasdaq. split; [|split; [|split]].
  - destruct (GasPrices.attempt eia _) as [d|] eqn:He.
    { apply GasFacts.attempt_some in He as [_ He].
      apply GasFacts.fetch_from_eia_shape in He as [p ->]. eauto. }
    destruct (GasPrices.attempt alpha _) as [d|] eqn:Ha.
    { apply GasFacts.attempt_some in Ha as [_ Ha].
      apply GasFacts.fetch_from_alpha_shape in Ha as [p ->]. eauto. }
    unfold GasPrices.mock_prices. eauto.
  - intros d Hk Hd. unfold GasPrices.attempt. apply String.eqb_neq in Hk. by rewrite Hk, Hd.
  - intros d He Hk Hd. apply GasFacts.attempt_none in He. rewrite He.
    unfold GasPrices.attempt at 1. apply String.eqb_neq in Hk. by rewrite Hk, Hd.
  - intros He Ha. apply GasFacts.attempt_none in He, Ha. by rewrite He, Ha.
Qed.

(* ------------------------------------------------------------------ *)
(** ** Interpretations and the macro view *)

Module FormatFacts.
Import Metrics EnergyFormat.

(** Reading a label for a fall in stocks as the matching label for a
    rise, and back. *)
Definition mirror_label (s : string) : string :=
  if String.eqb s "Bullish — forte queda semanal nos estoques"
  then "Bearish — forte aumento semanal nos estoques"
  else if String.eqb s "Bearish — forte aumento semanal nos estoques"
  then "Bullish — forte queda semanal nos estoques"
  else if String.eqb s "Levemente bullish — estoques recuando"
  then "Levemente bearish — estoques subindo"
  else if String.eqb s "Levemente bearish — estoques subindo"
  then "Levemente bullish — estoques recuando"
  else if String.eqb s "Bullish — queda >1% WoW nos estoques"
  then "Bearish — aumento >1% WoW nos estoques"
  else if String.eqb s "Bearish — aumento >1% WoW nos estoques"
  then "Bullish — queda >1% WoW nos estoques"
  else s.

(** A value that triggers no clause of a band [(-b, b)]: [nan] or a
    finite value strictly inside. *)
Definition quiet (b : Q) (v : pyfloat) : Prop :=
  v = NaN \/ exists q, v = Fin q /\ (- b < q < b)%Q.

Lemma qle_bool_false a b : Qle_bool a b = false -> (b < a)%Q.
Proof.
  intros H. apply Qnot_le_lt. intros Hle. apply Qle_bool_iff in Hle. congruence.
Qed.

Ltac qle_cases :=
  repeat match goal with
  | |- context [Qle_bool ?a ?b] =>
      let H := fresh "Hq" in
      destruct (Qle_bool a b) eqn:H;
      [apply Qle_bool_iff in H | apply qle_bool_false in H]; cbn [negb]
  end.

Lemma crude_clause_prefix s :
  exists t, crude_clause s = "estoques de petróleo bruto " ++ t.
Proof.
  unfold crude_clause.
  destruct (fle (spct s) (Fin (-1))); [eexists; reflexivity|].
  destruct (fge (spct s) (Fin 1)); eexists; reflexivity.
Qed.

Lemma concat_cons sep x xs :
  String.concat sep (x :: xs)
  = x ++ match xs with [] => "" | _ => sep ++ String.concat sep xs end.
Proof.
  destruct xs; simpl; [|reflexivity].
  induction x as [|c x IH]; [reflexivity|exact (f_equal (String c) IH)].
Qed.

Lemma capitalize_crude t :
  capitalize ("estoques de petróleo bruto " ++ t) = "Estoques de petróleo bruto " ++ t.
Proof. reflexivity. Qed.

Lemma append_assoc (a b c : string) : (a ++ b) ++ c = a ++ (b ++ c).
Proof. induction a as [|ch a IH]; [reflexivity|exact (f_equal (String ch) IH)]. Qed.

End FormatFacts.

(** X15: both [interpret_petroleum] functions (weekly summary and
    Telegram) use symmetric thresholds: negating a finite percent change
    swaps each bullish label with its bearish counterpart and keeps the
    neutral one; a [nan] change reads as neutral. *)
Theorem interpret_petroleum_mirror (q : Q) :
  EnergyFormat.weekly_interpret_petroleum (Metrics.Fin (- q))
  = FormatFacts.mirror_label (EnergyFormat.weekly_interpret_petroleum (Metrics.Fin q))
  /\ EnergyFormat.tg_interpret_petroleum (Metrics.Fin (- q))
     = FormatFacts.mirror_label (EnergyFormat.tg_interpret_petroleum (Metrics.Fin q))
  /\ EnergyFormat.weekly_interpret_petroleum Metrics.NaN = "Neutro — movimento semanal pequeno"
  /\ EnergyFormat.tg_interpret_petroleum Metrics.NaN = "Estável — sem sinal claro".
Proof.
  split; [|split; [|split; reflexivity]];
  unfold EnergyFormat.weekly_interpret_petroleum, EnergyFormat.tg_interpret_petroleum,
    EnergyFormat.fge, EnergyFormat.fle;
  FormatFacts.qle_cases; try reflexivity; exfalso; lra.
Qed.

(** X16: the weekly [interpret_gas] labels an outflow ("Saída ...")
    exactly for a negative change and an injection ("Injeção ...")
    exactly for a change of 10 Bcf or more; changes in [0, 10) are
    "Movimento moderado", while small outflows are not. *)
Theorem weekly_interpret_gas_direction (d : Q) :
  String.prefix "Saída" (EnergyFormat.weekly_interpret_gas (Metrics.Fin d)) = negb (Qle_bool 0 d)
  /\ String.prefix "Injeção" (EnergyFormat.weekly_interpret_gas (Metrics.Fin d)) = Qle_bool 10 d.
Proof.
  unfold EnergyFormat.weekly_interpret_gas, EnergyFormat.fge, EnergyFormat.fle,
    Metrics.flt, Metrics.fgt.
  split; FormatFacts.qle_cases; try reflexivity; exfalso; lra.
Qed.

(** X17: [macro_view] opens with the crude clause whenever crude stats
    are present ("Estoques de petróleo bruto ..."), and falls back to the
    neutral sentence when crude stats are absent and every other input is
    missing, [nan] or inside its band: products within 0.5%, gas within
    10 Bcf, the 4-week crude trend within 3%. *)
Theorem macro_view_shape (crude products gas : option Metrics.stats)
    (trend4 : option (Metrics.pyfloat * Metrics.pyfloat)) :
  (forall s, crude = Some s ->
     exists t, EnergyFormat.macro_view crude products gas trend4 = "Estoques de petróleo bruto " ++ t)
  /\ (crude = None ->
      (forall s, products = Some s -> FormatFacts.quiet (1 # 2) (Metrics.spct s)) ->
      (forall s, gas = Some s -> FormatFacts.quiet 10 (Metrics.sdelta s)) ->
      (forall x p, trend4 = Some (x, p) -> FormatFacts.quiet 3 p) ->
      EnergyFormat.macro_view crude products gas trend4 = EnergyFormat.neutral_macro).
Proof.
  split.
  - intros s ->. unfold EnergyFormat.macro_view. cbv zeta.
    destruct (FormatFacts.crude_clause_prefix s) as [t ->].
    cbn [app]. rewrite FormatFacts.concat_cons, FormatFacts.append_assoc,
      FormatFacts.capitalize_crude, FormatFacts.append_assoc.
    eexists. reflexivity.
  - intros -> Hp Hg Ht. unfold EnergyFormat.macro_view. cbv zeta.
    destruct products as [sp|]; [destruct (Hp sp eq_refl) as [Hn|(q1 & Hq & Hb1)]; rewrite ?Hn, ?Hq|];
    (destruct gas as [sg|]; [destruct (Hg sg eq_refl) as [Hn'|(q2 & Hq' & Hb2)]; rewrite ?Hn', ?Hq'|]);
    (destruct trend4 as [[x p]|]; [destruct (Ht x p eq_refl) as [Hn''|(q3 & Hq'' & Hb3)]; rewrite ?Hn'', ?Hq''|]);
    unfold EnergyFormat.fge, EnergyFormat.fle;
    FormatFacts.qle_cases; try reflexivity; exfalso; lra.
Qed.

(** X18: each Telegram message formatter, given stats, raises exactly
    when the stats carry no value ([None], from a [nan] newest row), and
    then with [TypeError] from the numeric format of [None]; so a gas
    message that is produced never shows the "Sem dados" reading of
    [interpret_gas]. *)
Theorem telegram_messages_need_a_value (F : EnergyFormat.formatter) (s : Metrics.stats)
    (label sid : string) (link : option string) (hist : option Metrics.pyfloat) :
  (forall e, EnergyFormat.format_petroleum_msg F (Some (s, label, sid)) link = Error e
             <-> Metrics.svalue s = None /\ e = TypeError)
  /\ (forall e, EnergyFormat.format_products_msg F (Some (s, label, sid)) link = Error e
                <-> Metrics.svalue s = None /\ e = TypeError)
  /\ (forall e, EnergyFormat.format_gas_msg F (Some (s, label, sid)) link hist = Error e
                <-> Metrics.svalue s = None /\ e = TypeError)
  /\ (forall txt, EnergyFormat.format_gas_msg F (Some (s, label, sid)) link hist = Ok txt ->
        EnergyFormat.tg_interpret_gas (Metrics.svalue s) (Metrics.sdelta s) hist <> "Sem dados").
Proof.
  unfold EnergyFormat.format_petroleum_msg, EnergyFormat.format_products_msg,
    EnergyFormat.format_gas_msg, EnergyFormat.fmt_opt.
  destruct (Metrics.svalue s) as [v|]; cbv zeta.
  - split; [|split; [|split]]; try (intros e; split; [discriminate|intros [? _]; discriminate]).
    intros txt _. unfold EnergyFormat.tg_interpret_gas.
    destruct (match hist with Some h => _ | None => false end); [discriminate|].
    destruct (Metrics.flt (Metrics.sdelta s) (Metrics.Fin (-5))); discriminate.
  - split; [|split; [|split]]; try (intros e; split; [intros H; injection H as <-; auto|intros [_ ->]; reflexivity]).
    intros txt H. discriminate.
Qed.

(* ------------------------------------------------------------------ *)
(** ** [crude_4w_trend] and the FRED price change *)

Module StatsFacts.
Import Metrics MetricsFacts.
Local Open Scope list_scope.



Lemma nth_last_four {A} (pre : list A) p4 a b c l :
  nth_last 0 (pre ++ [p4; a; b; c; l]) = Ok l /\ nth_last 4 (pre ++ [p4; a; b; c; l]) = Ok p4.
Proof. unfold nth_last. rewrite rev_app_distr. done. Qed.

End StatsFacts.

(** X21: [crude_4w_trend] answers [None] exactly below five rows and
    never raises from five rows on; with distinct dates the change is
    taken between the newest row and the row four places before it in
    date order. *)
Theorem crude_4w_trend_window (rows : list Metrics.row) :
  ((length rows < 5)%nat <-> Metrics.crude_4w_trend rows = Ok None)
  /\ ((5 <= length rows)%nat -> exists d pc, Metrics.crude_4w_trend rows = Ok (Some (d, pc)))
  /\ (forall pre p4 a b c l,
        Permutation rows (pre ++ [p4; a; b; c; l])%list ->
        StronglySorted MetricsFacts.date_lt (pre ++ [p4; a; b; c; l])%list ->
        exists pc, Metrics.crude_4w_trend rows
                   = Ok (Some (Metrics.fsub (Metrics.rvalue l) (Metrics.rvalue p4), pc))
                   /\ Metrics.pct_of (Metrics.fsub (Metrics.rvalue l) (Metrics.rvalue p4))
                        (Metrics.rvalue p4) = Ok pc).
Proof.
  assert (H2 : (5 <= length rows)%nat -> exists d pc, Metrics.crude_4w_trend rows = Ok (Some (d, pc))).
  { intros Hlen. unfold Metrics.crude_4w_trend.
    destruct (length rows <? 5)%nat eqn:E; [apply Nat.ltb_lt in E; lia|]. cbv zeta.
    pose proof (Permutation_length (MetricsFacts.sort_rows_perm rows)) as HL.
    destruct (MetricsFacts.nth_last_ok 0 (Metrics.sort_rows rows)) as [l Hl]; [lia|].
    destruct (MetricsFacts.nth_last_ok 4 (Metrics.sort_rows rows)) as [p Hp]; [lia|].
    rewrite Hl, Hp.
    destruct (MetricsFacts.pct_of_ok (Metrics.fsub (Metrics.rvalue l) (Metrics.rvalue p))
                (Metrics.rvalue p)) as [pc Hpc].
    rewrite Hpc. eauto. }
  split; [|split; [exact H2|]].
  - split.
    + intros H. unfold Metrics.crude_4w_trend. apply Nat.ltb_lt in H. by rewrite H.
    + intros H. destruct (Nat.lt_ge_cases (length rows) 5) as [|Hge]; [done|].
      destruct (H2 Hge) as (d & pc & H'). congruence.
  - intros pre p4 a b c l Hp Hs. unfold Metrics.crude_4w_trend.
    rewrite (MetricsFacts.sort_rows_of_sorted rows _ Hp Hs).
    pose proof (Permutation_length Hp) as HL. rewrite length_app in HL. simpl in HL.
    destruct (length rows <? 5)%nat eqn:E; [apply Nat.ltb_lt in E; lia|]. cbv zeta.
    destruct (StatsFacts.nth_last_four pre p4 a b c l) as [-> ->].
    destruct (MetricsFacts.pct_of_ok (Metrics.fsub (Metrics.rvalue l) (Metrics.rvalue p4))
                (Metrics.rvalue p4)) as [pc Hpc].
    rewrite Hpc. eauto.
Qed.

